(** * Environmental monitor (app.py): sampling, averaging and retention

    A shallow embedding of [src/app.py] and the properties of its
    sampling-aggregation-retention pipeline.

    Layout:
    - the Python values and built-ins the program uses (numbers,
      JSON-shaped objects, [sum], [/], [round], [len], slicing);
    - [Datetime]: [datetime] arithmetic, [strftime] and [isoformat];
    - the module-level globals of app.py as one [state] record, and a
      state-and-exception monad [M] in which the functions of app.py are
      written line by line: [load_historical_data], [save_historical_data],
      [add_to_buffer], [save_averaged_data], [clean_old_data],
      [clear_history] and one iteration of [sensor_loop];
    - the vocabulary of the statements and the example inputs;
    - the lemmas and theorems, and their concrete instances.

    Modelling conventions.
    - Python [float] is IEEE binary64: Rocq's primitive [float].  Python
      [int] is [Z].
    - [sum] adds from left to right starting at the integer 0, as the
      language reference defines it (and as CPython up to 3.11 computes it).
    - The history file is represented by what [json.load] returns for it:
      [Absent] (no file), [Unparseable] (text that [json.load] rejects) or
      [Parsed j].  [json.dump] followed by [json.load] is the identity on the
      JSON-shaped values the program stores.  Opening, writing and removing
      the file succeed.
    - Every [datetime.now()] and [time.strftime] call takes the clock reading
      as an argument.
    - Strings are sequences of one-byte characters. *)

From Stdlib Require Import ZArith List String Ascii Bool Lia Permutation Floats.
Import ListNotations.

Open Scope string_scope.
Open Scope list_scope.
Open Scope Z_scope.

Set Warnings "-register-all,-inexact-float".

(* ================================================================= *)
(** ** Python values and built-ins *)

(** The exceptions that can occur in the modelled code. *)
Inductive exn : Type :=
| KeyError | TypeError | AttributeError | ValueError | OverflowError
| ZeroDivisionError | RuntimeError | OtherException.

(** Numbers as the sensor driver and the arithmetic produce them. *)
Inductive pynum : Type :=
| PyInt (z : Z)
| PyFloat (f : float).

(** Objects of the shapes [json.load] produces; dictionaries keep their
    insertion order. *)
Inductive json : Type :=
| JNull
| JBool (b : bool)
| JInt (z : Z)
| JFloat (f : float)
| JStr (s : string)
| JList (l : list json)
| JObj (kv : list (string * json)).

Definition result (A : Type) : Type := (exn + A)%type.
Definition ok {A} (a : A) : result A := inr a.
Definition fail {A} (e : exn) : result A := inl e.

(** *** Dictionaries *)

Fixpoint dict_get (k : string) (kv : list (string * json)) : option json :=
  match kv with
  | [] => None
  | (k', v) :: rest => if String.eqb k k' then Some v else dict_get k rest
  end.

(** [d[k] = v]: an existing key keeps its position. *)
Fixpoint dict_set (k : string) (v : json) (kv : list (string * json))
  : list (string * json) :=
  match kv with
  | [] => [(k, v)]
  | (k', v') :: rest =>
      if String.eqb k k' then (k, v) :: rest else (k', v') :: dict_set k v rest
  end.

(** [obj[key]] with a string key. *)
Definition py_getitem (obj : json) (key : string) : result json :=
  match obj with
  | JObj kv => match dict_get key kv with
               | Some v => ok v
               | None => fail KeyError
               end
  | _ => fail TypeError
  end.

(** [obj[key] = v] on an object whose [obj[key]] was read before. *)
Definition py_setitem (obj : json) (key : string) (v : json) : json :=
  match obj with
  | JObj kv => JObj (dict_set key v kv)
  | _ => obj
  end.

(** [obj.get(key, default)]: only dictionaries have [get]. *)
Definition py_get (obj : json) (key : string) (default : json) : result json :=
  match obj with
  | JObj kv => match dict_get key kv with
               | Some v => ok v
               | None => ok default
               end
  | _ => fail AttributeError
  end.

(** [obj.append(x)]: only lists have [append]. *)
Definition py_append (obj : json) (x : json) : result json :=
  match obj with
  | JList l => ok (JList (l ++ [x]))
  | _ => fail AttributeError
  end.

(** [len(obj)]. *)
Definition py_len (obj : json) : result nat :=
  match obj with
  | JList l => ok (List.length l)
  | JStr s => ok (String.length s)
  | JObj kv => ok (List.length kv)
  | _ => fail TypeError
  end.

(** Truth value of an object ([if obj:], [not obj]). *)
Definition py_truthy (obj : json) : bool :=
  match obj with
  | JNull => false
  | JBool b => b
  | JInt z => negb (z =? 0)
  | JFloat f => negb (PrimFloat.eqb f 0%float)
  | JStr s => negb (String.eqb s "")
  | JList l => match l with [] => false | _ => true end
  | JObj kv => match kv with [] => false | _ => true end
  end.

(** The items [for x in obj] visits. *)
Definition py_iter (obj : json) : result (list json) :=
  match obj with
  | JList l => ok l
  | JStr s => ok (map (fun c => JStr (String c "")) (list_ascii_of_string s))
  | JObj kv => ok (map (fun p => JStr (fst p)) kv)
  | _ => fail TypeError
  end.

(** [xs[-n:]] for [n > 0]: the last [n] items, all of them when there are
    fewer. *)
Definition last_n {A} (n : nat) (xs : list A) : list A :=
  skipn (List.length xs - n) xs.

Definition string_skipn (n : nat) (s : string) : string :=
  string_of_list_ascii (skipn n (list_ascii_of_string s)).

(** [obj[-n:]]. *)
Definition py_slice_last (n : nat) (obj : json) : result json :=
  match obj with
  | JList l => ok (JList (last_n n l))
  | JStr s => ok (JStr (string_skipn (String.length s - n) s))
  | _ => fail TypeError
  end.

(** [obj[k:]] for [k >= 0]. *)
Definition py_slice_from (k : nat) (obj : json) : result json :=
  match obj with
  | JList l => ok (JList (skipn k l))
  | JStr s => ok (JStr (string_skipn k s))
  | _ => fail TypeError
  end.

(** *** Numbers *)

(** [float(z)]: the nearest binary64 value, ties to even; [OverflowError]
    when the result is not finite. *)
Definition py_float_of_int (z : Z) : result float :=
  match binary_normalize prec emax z 0 false with
  | S754_infinity _ => fail OverflowError
  | sf => ok (SF2Prim sf)
  end.

(** [a + b]. *)
Definition py_add (a b : pynum) : result pynum :=
  match a, b with
  | PyInt x, PyInt y => ok (PyInt (x + y))
  | PyFloat x, PyFloat y => ok (PyFloat (x + y)%float)
  | PyInt x, PyFloat y =>
      match py_float_of_int x with
      | inr fx => ok (PyFloat (fx + y)%float)
      | inl e => fail e
      end
  | PyFloat x, PyInt y =>
      match py_float_of_int y with
      | inr fy => ok (PyFloat (x + fy)%float)
      | inl e => fail e
      end
  end.

(** [sum(xs)]: left to right from the integer 0. *)
Fixpoint py_sum_from (acc : pynum) (xs : list pynum) : result pynum :=
  match xs with
  | [] => ok acc
  | x :: rest => match py_add acc x with
                 | inr acc' => py_sum_from acc' rest
                 | inl e => fail e
                 end
  end.

Definition py_sum (xs : list pynum) : result pynum := py_sum_from (PyInt 0) xs.

(** [a / n] for integers, [n > 0]: the correctly rounded quotient;
    [OverflowError] when it is too large for a float. *)
Definition py_int_truediv (a : Z) (n : positive) : result float :=
  match a with
  | Z0 => ok 0%float
  | _ =>
      match SFdiv prec emax (S754_finite (a <? 0) (Z.to_pos (Z.abs a)) 0)
                            (S754_finite false n 0) with
      | S754_infinity _ => fail OverflowError
      | sf => ok (SF2Prim sf)
      end
  end.

(** [x / len(xs)] where [n] is the length. *)
Definition py_truediv_len (x : pynum) (n : nat) : result float :=
  match n with
  | O => fail ZeroDivisionError
  | S _ =>
      match x with
      | PyInt a => py_int_truediv a (Pos.of_nat n)
      | PyFloat f =>
          match py_float_of_int (Z.of_nat n) with
          | inr fn => ok (f / fn)%float
          | inl e => fail e
          end
      end
  end.

(** The integer nearest to [a / b], ties to the even one ([0 <= a], [0 < b]). *)
Definition round_half_even_div (a b : Z) : Z :=
  let q := a / b in
  match 2 * (a mod b) ?= b with
  | Lt => q
  | Gt => q + 1
  | Eq => if Z.even q then q else q + 1
  end.

(** [round(x, 1)] on a float: the exact value of [x] is rounded to one
    decimal (ties to even), and that decimal is converted back to the
    nearest float; infinities and NaN round to themselves. *)
Definition py_round1 (x : float) : float :=
  match Prim2SF x with
  | S754_finite s m e =>
      let tenths :=
        if 0 <=? e then Zpos m * 2 ^ e * 10
        else round_half_even_div (Zpos m * 10) (2 ^ (- e)) in
      match tenths with
      | Zpos p =>
          SF2Prim (SFdiv prec emax (S754_finite s p 0) (S754_finite false 10 0))
      | _ => SF2Prim (S754_zero s)
      end
  | _ => x
  end.

(** [x >= n] for a number [x] and a small integer literal [n]. *)
Definition py_ge_int (x : pynum) (n : Z) : bool :=
  match x with
  | PyInt z => n <=? z
  | PyFloat f => PrimFloat.leb (PrimFloat.of_uint63 (Uint63.of_Z n)) f
  end.

(* ================================================================= *)
(** ** [datetime] *)

Module Datetime.

(** A naive [datetime] (no time zone). *)
Record datetime : Type := mkDatetime {
  year : Z; month : Z; day : Z;
  hour : Z; minute : Z; second : Z; microsecond : Z
}.

Definition is_leap (y : Z) : bool :=
  (y mod 4 =? 0) && (negb (y mod 100 =? 0) || (y mod 400 =? 0)).

Definition days_in_month_table (m : Z) : Z :=
  match m with
  | 1 => 31 | 2 => 28 | 3 => 31 | 4 => 30 | 5 => 31 | 6 => 30
  | 7 => 31 | 8 => 31 | 9 => 30 | 10 => 31 | 11 => 30 | 12 => 31
  | _ => -1
  end.

Definition days_before_month_table (m : Z) : Z :=
  match m with
  | 1 => 0 | 2 => 31 | 3 => 59 | 4 => 90 | 5 => 120 | 6 => 151
  | 7 => 181 | 8 => 212 | 9 => 243 | 10 => 273 | 11 => 304 | 12 => 334
  | _ => -1
  end.

Definition days_before_year (y : Z) : Z :=
  let y1 := y - 1 in y1 * 365 + y1 / 4 - y1 / 100 + y1 / 400.

Definition days_in_month (y m : Z) : Z :=
  if (m =? 2) && is_leap y then 29 else days_in_month_table m.

Definition days_before_month (y m : Z) : Z :=
  days_before_month_table m + (if (2 <? m) && is_leap y then 1 else 0).

Definition ymd2ord (y m d : Z) : Z :=
  days_before_year y + days_before_month y m + d.

Definition DI400Y : Z := 146097.
Definition DI100Y : Z := 36524.
Definition DI4Y : Z := 1461.
Definition MAXORDINAL : Z := 3652059.

(** Ordinal to (year, month, day), 1 being 0001-01-01. *)
Definition ord2ymd (ordinal : Z) : Z * Z * Z :=
  let n := ordinal - 1 in
  let n400 := n / DI400Y in
  let n := n mod DI400Y in
  let n100 := n / DI100Y in
  let n := n mod DI100Y in
  let n4 := n / DI4Y in
  let n := n mod DI4Y in
  let n1 := n / 365 in
  let n := n mod 365 in
  let y := n400 * 400 + 1 + n100 * 100 + n4 * 4 + n1 in
  if (n1 =? 4) || (n100 =? 4) then (y - 1, 12, 31)
  else
    let leapyear := (n1 =? 3) && (negb (n4 =? 24) || (n100 =? 3)) in
    let m := Z.shiftr (n + 50) 5 in
    let preceding :=
      days_before_month_table m + (if (2 <? m) && leapyear then 1 else 0) in
    if n <? preceding then
      let m' := m - 1 in
      let preceding' :=
        preceding
        - (days_in_month_table m' + (if (m' =? 2) && leapyear then 1 else 0)) in
      (y, m', n - preceding' + 1)
    else (y, m, n - preceding + 1).

(** The fields a [datetime] object can hold. *)
Definition valid (d : datetime) : Prop :=
  1 <= year d <= 9999 /\ 1 <= month d <= 12 /\
  1 <= day d <= days_in_month (year d) (month d) /\
  0 <= hour d < 24 /\ 0 <= minute d < 60 /\ 0 <= second d < 60 /\
  0 <= microsecond d < 1000000.

Definition US_PER_SECOND : Z := 1000000.
Definition US_PER_DAY : Z := 86400 * US_PER_SECOND.

(** Microseconds since the start of ordinal day 0. *)
Definition to_us (d : datetime) : Z :=
  ((ymd2ord (year d) (month d) (day d) * 86400
    + hour d * 3600 + minute d * 60 + second d) * US_PER_SECOND)
  + microsecond d.

Definition of_us (t : Z) : option datetime :=
  let days := t / US_PER_DAY in
  let rest := t mod US_PER_DAY in
  let secs := rest / US_PER_SECOND in
  let us := rest mod US_PER_SECOND in
  if (0 <? days) && (days <=? MAXORDINAL) then
    let '(y, m, d) := ord2ymd days in
    Some (mkDatetime y m d (secs / 3600) ((secs mod 3600) / 60)
                     ((secs mod 3600) mod 60) us)
  else None.

(** [d + timedelta(microseconds=delta)]; [None] is [OverflowError]. *)
Definition add_us (d : datetime) (delta : Z) : option datetime :=
  of_us (to_us d + delta).

(** [(a - b)] in microseconds. *)
Definition sub_us (a b : datetime) : Z := to_us a - to_us b.

(** [(a - b).total_seconds() >= n] for an integer [n].  [total_seconds]
    is the correctly rounded quotient of the microseconds by 10^6; as [n] is
    a float and rounding is monotone, the comparison is the one of the exact
    values. *)
Definition total_seconds_ge (delta_us n : Z) : bool :=
  n * US_PER_SECOND <=? delta_us.

(** [a >= b]. *)
Definition geb (a b : datetime) : bool := to_us b <=? to_us a.

(** *** Formatting (C locale) *)

Definition digit (k : Z) : ascii := ascii_of_nat (48 + Z.to_nat k).

Definition pad2 (n : Z) : string :=
  String (digit (n / 10)) (String (digit (n mod 10)) "").

Definition pad4 (n : Z) : string := pad2 (n / 100) ++ pad2 (n mod 100).

Definition pad6 (n : Z) : string :=
  pad2 (n / 10000) ++ pad2 ((n / 100) mod 100) ++ pad2 (n mod 100).

Definition month_abbr (m : Z) : string :=
  match m with
  | 1 => "Jan" | 2 => "Feb" | 3 => "Mar" | 4 => "Apr" | 5 => "May"
  | 6 => "Jun" | 7 => "Jul" | 8 => "Aug" | 9 => "Sep" | 10 => "Oct"
  | 11 => "Nov" | _ => "Dec"
  end.

Definition hour12 (h : Z) : Z := if h mod 12 =? 0 then 12 else h mod 12.
Definition am_pm (h : Z) : string := if h <? 12 then "AM" else "PM".

(** [d.strftime("%b %d %I:%M %p")]. *)
Definition strftime_label (d : datetime) : string :=
  month_abbr (month d) ++ " " ++ pad2 (day d) ++ " "
  ++ pad2 (hour12 (hour d)) ++ ":" ++ pad2 (minute d) ++ " " ++ am_pm (hour d).

(** [strftime("%Y-%m-%d %I:%M:%S %p")]. *)
Definition strftime_full (d : datetime) : string :=
  pad4 (year d) ++ "-" ++ pad2 (month d) ++ "-" ++ pad2 (day d) ++ " "
  ++ pad2 (hour12 (hour d)) ++ ":" ++ pad2 (minute d) ++ ":"
  ++ pad2 (second d) ++ " " ++ am_pm (hour d).

(** [d.isoformat()]. *)
Definition isoformat (d : datetime) : string :=
  pad4 (year d) ++ "-" ++ pad2 (month d) ++ "-" ++ pad2 (day d) ++ "T"
  ++ pad2 (hour d) ++ ":" ++ pad2 (minute d) ++ ":" ++ pad2 (second d)
  ++ (if microsecond d =? 0 then "" else "." ++ pad6 (microsecond d)).

End Datetime.

Import Datetime.

(* ================================================================= *)
(** ** The globals of app.py *)

(** [sensor_data]: a dictionary with five fixed keys. *)
Record sensor_dict : Type := mkSensor {
  temperature : option pynum;
  humidity : option pynum;
  buzzer : string;
  time : option string;
  error : bool
}.

(** The history file [HIST_FILE], as [json.load] sees it. *)
Inductive file : Type :=
| Absent
| Unparseable
| Parsed (content : json).

Record state : Type := mkState {
  sensor_data : sensor_dict;
  buzzer_value : bool;                         (* buzzer.value *)
  historical_data : json;
  last_historical_save : option datetime;
  temp_readings_buffer : list pynum;
  humidity_readings_buffer : list pynum;
  buffer_start_time : option datetime;
  hist_file : file
}.

Definition HISTORICAL_INTERVAL : Z := 300.
Definition MAX_HISTORICAL_POINTS : nat := 288.

(** [{"labels": [], "temp": [], "hum": []}] *)
Definition empty_history : json :=
  JObj [("labels", JList []); ("temp", JList []); ("hum", JList [])].

(** The globals as the module initialises them, with the file found on
    disk. *)
Definition initial_state (f : file) : state :=
  {| sensor_data := mkSensor None None "OFF" None false;
     buzzer_value := false;
     historical_data := empty_history;
     last_historical_save := None;
     temp_readings_buffer := [];
     humidity_readings_buffer := [];
     buffer_start_time := None;
     hist_file := f |}.

Definition set_sensor_data (v : sensor_dict) (s : state) : state :=
  mkState v (buzzer_value s) (historical_data s) (last_historical_save s)
          (temp_readings_buffer s) (humidity_readings_buffer s)
          (buffer_start_time s) (hist_file s).
Definition set_buzzer_value (v : bool) (s : state) : state :=
  mkState (sensor_data s) v (historical_data s) (last_historical_save s)
          (temp_readings_buffer s) (humidity_readings_buffer s)
          (buffer_start_time s) (hist_file s).
Definition set_historical_data (v : json) (s : state) : state :=
  mkState (sensor_data s) (buzzer_value s) v (last_historical_save s)
          (temp_readings_buffer s) (humidity_readings_buffer s)
          (buffer_start_time s) (hist_file s).
Definition set_last_historical_save (v : option datetime) (s : state) : state :=
  mkState (sensor_data s) (buzzer_value s) (historical_data s) v
          (temp_readings_buffer s) (humidity_readings_buffer s)
          (buffer_start_time s) (hist_file s).
Definition set_temp_readings_buffer (v : list pynum) (s : state) : state :=
  mkState (sensor_data s) (buzzer_value s) (historical_data s)
          (last_historical_save s) v (humidity_readings_buffer s)
          (buffer_start_time s) (hist_file s).
Definition set_humidity_readings_buffer (v : list pynum) (s : state) : state :=
  mkState (sensor_data s) (buzzer_value s) (historical_data s)
          (last_historical_save s) (temp_readings_buffer s) v
          (buffer_start_time s) (hist_file s).
Definition set_buffer_start_time (v : option datetime) (s : state) : state :=
  mkState (sensor_data s) (buzzer_value s) (historical_data s)
          (last_historical_save s) (temp_readings_buffer s)
          (humidity_readings_buffer s) v (hist_file s).
Definition set_hist_file (v : file) (s : state) : state :=
  mkState (sensor_data s) (buzzer_value s) (historical_data s)
          (last_historical_save s) (temp_readings_buffer s)
          (humidity_readings_buffer s) (buffer_start_time s) v.

(* ================================================================= *)
(** ** Statements: state passing with exceptions *)

(** A statement either completes with a value or raises; both leave a
    state behind, with the mutations made so far. *)
Inductive outcome (A : Type) : Type :=
| Returns (a : A) (s : state)
| Raises (e : exn) (s : state).
Arguments Returns {A} a s.
Arguments Raises {A} e s.

Definition M (A : Type) : Type := state -> outcome A.

Definition ret {A} (a : A) : M A := fun s => Returns a s.

Definition bind {A B} (c : M A) (k : A -> M B) : M B :=
  fun s => match c s with
           | Returns a s' => k a s'
           | Raises e s' => Raises e s'
           end.

Definition raise {A} (e : exn) : M A := fun s => Raises e s.

(** Read a global. *)
Definition gets {A} (f : state -> A) : M A := fun s => Returns (f s) s.

(** Assign a global. *)
Definition modify (f : state -> state) : M unit := fun s => Returns tt (f s).

(** Evaluate an expression that may raise. *)
Definition lift {A} (r : result A) : M A :=
  match r with
  | inr a => ret a
  | inl e => raise e
  end.

(** [try: body  except Exception: handler]. *)
Definition try_except {A} (body : M A) (handler : exn -> M A) : M A :=
  fun s => match body s with
           | Returns a s' => Returns a s'
           | Raises e s' => handler e s'
           end.

Definition final_state {A} (o : outcome A) : state :=
  match o with
  | Returns _ s => s
  | Raises _ s => s
  end.

Declare Scope stmt_scope.
Delimit Scope stmt_scope with stmt.
Notation "x <- c ;; k" := (bind c (fun x => k))
  (at level 61, c at next level, right associativity) : stmt_scope.
Notation "c ;; k" := (bind c (fun _ => k))
  (at level 61, right associativity) : stmt_scope.
Open Scope stmt_scope.

(* ================================================================= *)
(** ** Historical data functions *)

(** [historical_data[key].append(x)] *)
Definition history_append (key : string) (x : json) : M unit :=
  hd <- gets historical_data ;;
  lst <- lift (py_getitem hd key) ;;
  lst' <- lift (py_append lst x) ;;
  modify (set_historical_data (py_setitem hd key lst')).

(** [historical_data[key] = historical_data[key][-MAX_HISTORICAL_POINTS:]] *)
Definition history_keep_last (key : string) : M unit :=
  hd <- gets historical_data ;;
  lst <- lift (py_getitem hd key) ;;
  lst' <- lift (py_slice_last MAX_HISTORICAL_POINTS lst) ;;
  modify (set_historical_data (py_setitem hd key lst')).

(** [historical_data[key] = historical_data[key][keep_from:]] *)
Definition history_drop_before (keep_from : nat) (key : string) : M unit :=
  hd <- gets historical_data ;;
  lst <- lift (py_getitem hd key) ;;
  lst' <- lift (py_slice_from keep_from lst) ;;
  modify (set_historical_data (py_setitem hd key lst')).

(** [save_historical_data()]: nothing in its [try] block raises, as the
    history is JSON-shaped and the file system is taken to work. *)
Definition save_historical_data : M unit :=
  hd <- gets historical_data ;;
  last <- gets last_historical_save ;;
  let data_to_save :=
    JObj [("data", hd);
          ("last_save", match last with
                        | Some d => JStr (isoformat d)
                        | None => JNull
                        end)] in
  modify (set_hist_file (Parsed data_to_save)).

(** Lines 113-122 of [save_averaged_data]: add the averaged point and keep
    only the last [MAX_HISTORICAL_POINTS]. *)
Definition append_point (timestamp : string) (t h : float) : M unit :=
  history_append "labels" (JStr timestamp) ;;
  history_append "temp" (JFloat t) ;;
  history_append "hum" (JFloat h) ;;
  hd <- gets historical_data ;;
  labels <- lift (py_getitem hd "labels") ;;
  n <- lift (py_len labels) ;;
  if (MAX_HISTORICAL_POINTS <? n)%nat then
    history_keep_last "labels" ;;
    history_keep_last "temp" ;;
    history_keep_last "hum"
  else ret tt.

(** [buffer_start_time + timedelta(seconds=HISTORICAL_INTERVAL/2)] *)
Definition middle_of_period (start : option datetime) : result datetime :=
  match start with
  | None => fail TypeError
  | Some t0 =>
      match add_us t0 (HISTORICAL_INTERVAL * US_PER_SECOND / 2) with
      | Some m => ok m
      | None => fail OverflowError
      end
  end.

(** [save_averaged_data()]; [now] is the clock at line 124. *)
Definition save_averaged_data (now : datetime) : M bool :=
  temps <- gets temp_readings_buffer ;;
  hums <- gets humidity_readings_buffer ;;
  match temps, hums with
  | [], _ | _, [] => ret false
  | _, _ =>
      sum_temp <- lift (py_sum temps) ;;
      avg_temp <- lift (py_truediv_len sum_temp (List.length temps)) ;;
      sum_hum <- lift (py_sum hums) ;;
      avg_humidity <- lift (py_truediv_len sum_hum (List.length hums)) ;;
      start <- gets buffer_start_time ;;
      middle_time <- lift (middle_of_period start) ;;
      let timestamp := strftime_label middle_time in
      append_point timestamp (py_round1 avg_temp) (py_round1 avg_humidity) ;;
      modify (set_last_historical_save (Some now)) ;;
      save_historical_data ;;
      modify (set_temp_readings_buffer []) ;;
      modify (set_humidity_readings_buffer []) ;;
      modify (set_buffer_start_time None) ;;
      ret true
  end.

(** [add_to_buffer(temperature, humidity)]; [now] is the clock at line 83,
    [now_save] the clock inside [save_averaged_data]. *)
Definition add_to_buffer (now now_save : datetime) (t h : pynum) : M unit :=
  start <- gets buffer_start_time ;;
  (match start with
   | None => modify (set_buffer_start_time (Some now))
   | Some _ => ret tt
   end) ;;
  temps <- gets temp_readings_buffer ;;
  modify (set_temp_readings_buffer (temps ++ [t])) ;;
  hums <- gets humidity_readings_buffer ;;
  modify (set_humidity_readings_buffer (hums ++ [h])) ;;
  start' <- gets buffer_start_time ;;
  match start' with
  | None => raise TypeError
  | Some t0 =>
      if total_seconds_ge (sub_us now t0) HISTORICAL_INTERVAL
      then _ <- save_averaged_data now_save ;; ret tt
      else ret tt
  end.

(** [clear_history()]: the response status and HTTP code. *)
Definition clear_history : M (string * Z) :=
  try_except
    (modify (set_historical_data empty_history) ;;
     modify (set_last_historical_save None) ;;
     modify (set_temp_readings_buffer []) ;;
     modify (set_humidity_readings_buffer []) ;;
     modify (set_buffer_start_time None) ;;
     f <- gets hist_file ;;
     (match f with
      | Absent => ret tt
      | _ => modify (set_hist_file Absent)
      end) ;;
     ret ("success", 200))
    (fun _ => ret ("error", 500)).

(* ================================================================= *)
(** ** Sensor loop *)

(** What reading a property of [dht_device] does: a value, [None], or an
    exception. *)
Inductive reading : Type :=
| Value (v : option pynum)
| ReadRuntimeError
| ReadOtherError.

Definition read_sensor (r : reading) : M (option pynum) :=
  match r with
  | Value v => ret v
  | ReadRuntimeError => raise RuntimeError
  | ReadOtherError => raise OtherException
  end.

(** [sensor_data.update({...})] of lines 209-214. *)
Definition update_sensor_data (t h : pynum) (now : string) : M unit :=
  sd <- gets sensor_data ;;
  modify (set_sensor_data (mkSensor (Some t) (Some h) (buzzer sd) (Some now) false)).

(** [sensor_data["error"] = True] *)
Definition mark_error : M unit :=
  sd <- gets sensor_data ;;
  modify (set_sensor_data
            (mkSensor (temperature sd) (humidity sd) (buzzer sd) (time sd) true)).

(** [buzzer.value = v; sensor_data["buzzer"] = name] *)
Definition set_buzzer (v : bool) (name : string) : M unit :=
  modify (set_buzzer_value v) ;;
  sd <- gets sensor_data ;;
  modify (set_sensor_data
            (mkSensor (temperature sd) (humidity sd) name (time sd) (error sd))).

(** One iteration of the [while] loop of [sensor_loop]; [clock] is the
    local time of line 208, [now] and [now_save] the clocks of
    [add_to_buffer]. *)
Definition sensor_loop_body (t_read h_read : reading)
           (clock now now_save : datetime) : M unit :=
  try_except
    (t <- read_sensor t_read ;;
     h <- read_sensor h_read ;;
     match t, h with
     | Some t, Some h =>
         update_sensor_data t h (strftime_full clock) ;;
         add_to_buffer now now_save t h ;;
         if py_ge_int t 38
         then set_buzzer true "ON"
         else set_buzzer false "OFF"
     | _, _ => mark_error
     end)
    (fun _ => mark_error).

(* ================================================================= *)
(** ** Functions that parse timestamps *)

Section Parsing.

(** [datetime.fromisoformat(s)]; [None] is [ValueError]. *)
Variable fromisoformat : string -> option datetime.

(** [datetime.strptime(f"{year} {label}", fmt)]; [None] is [ValueError]. *)
Variable strptime_label : Z -> json -> string -> option datetime.

Definition py_fromisoformat (v : json) : result datetime :=
  match v with
  | JStr s => match fromisoformat s with
              | Some d => ok d
              | None => fail ValueError
              end
  | _ => fail TypeError
  end.

(** [load_historical_data()] *)
Definition load_historical_data : M unit :=
  try_except
    (f <- gets hist_file ;;
     match f with
     | Absent => ret tt
     | Unparseable => raise ValueError
     | Parsed data =>
         hd <- lift (py_get data "data" empty_history) ;;
         modify (set_historical_data hd) ;;
         last_save_str <- lift (py_get data "last_save" JNull) ;;
         (if py_truthy last_save_str
          then d <- lift (py_fromisoformat last_save_str) ;;
               modify (set_last_historical_save (Some d))
          else ret tt) ;;
         hd' <- gets historical_data ;;
         labels <- lift (py_getitem hd' "labels") ;;
         _ <- lift (py_len labels) ;;
         ret tt
     end)
    (fun _ => modify (set_historical_data empty_history)).

(** Lines 152-156: the 12-hour format first, the 24-hour format as the
    fallback. *)
Definition point_time (year : Z) (label : json) : option datetime :=
  match strptime_label year label "%Y %b %d %I:%M %p" with
  | Some t => Some t
  | None => strptime_label year label "%Y %b %d %H:%M"
  end.

(** The [for] loop of lines 147-162, from index [i] on; a label that does
    not parse is skipped. *)
Fixpoint find_keep_from (year : Z) (cutoff_time : datetime) (i : nat)
         (labels : list json) : nat :=
  match labels with
  | [] => 0%nat
  | label :: rest =>
      match point_time year label with
      | Some t =>
          if geb t cutoff_time then i
          else find_keep_from year cutoff_time (S i) rest
      | None => find_keep_from year cutoff_time (S i) rest
      end
  end.

(** [now - timedelta(hours=24)] *)
Definition cutoff (now : datetime) : result datetime :=
  match add_us now (- (24 * 3600 * US_PER_SECOND)) with
  | Some c => ok c
  | None => fail OverflowError
  end.

(** [clean_old_data()]; [now] is the clock at line 143. *)
Definition clean_old_data (now : datetime) : M unit :=
  hd <- gets historical_data ;;
  labels <- lift (py_getitem hd "labels") ;;
  if negb (py_truthy labels) then ret tt
  else
    cutoff_time <- lift (cutoff now) ;;
    items <- lift (py_iter labels) ;;
    let keep_from := find_keep_from (year now) cutoff_time 0 items in
    if (0 <? keep_from)%nat then
      history_drop_before keep_from "labels" ;;
      history_drop_before keep_from "temp" ;;
      history_drop_before keep_from "hum" ;;
      save_historical_data
    else ret tt.

End Parsing.

(* ================================================================= *)
(** ** The loops, the shutdown and the statistics route *)

(** What one pass of the [while] loop of [sensor_loop] meets: the two
    sensor reads and the three clock readings. *)
Record tick : Type := mkTick {
  tick_temperature : reading;
  tick_humidity : reading;
  tick_clock : datetime;
  tick_now : datetime;
  tick_now_save : datetime
}.

(** [sensor_loop()]: one [sensor_loop_body] (and a sleep) per tick, until
    [stop_event] is found set, which is the end of the list. *)
Fixpoint sensor_loop (ticks : list tick) : M unit :=
  match ticks with
  | [] => ret tt
  | k :: rest =>
      sensor_loop_body (tick_temperature k) (tick_humidity k)
                       (tick_clock k) (tick_now k) (tick_now_save k) ;;
      sensor_loop rest
  end.

(** [cleanup_thread()]: one [clean_old_data] per wake-up, at the given
    clock readings, until [stop_event] is found set.  The loop has no [try]:
    an exception of [clean_old_data] ends it. *)
Fixpoint cleanup_thread (strptime_label : Z -> json -> string -> option datetime)
         (wakeups : list datetime) : M unit :=
  match wakeups with
  | [] => ret tt
  | now :: rest =>
      clean_old_data strptime_label now ;;
      cleanup_thread strptime_label rest
  end.

(** [cleanup()] up to its final [sys.exit(0)]: the remaining buffered data is
    saved and the buzzer is switched off.  [pin_writable] tells whether
    [buzzer.value = False] succeeds; releasing the devices changes no
    global, and its exceptions are caught. *)
Definition cleanup (now_save : datetime) (pin_writable : bool) : M unit :=
  temps <- gets temp_readings_buffer ;;
  hums <- gets humidity_readings_buffer ;;
  (match temps, hums with
   | [], _ | _, [] => ret tt
   | _, _ => _ <- save_averaged_data now_save ;; ret tt
   end) ;;
  try_except
    (if pin_writable then modify (set_buzzer_value false)
     else raise OtherException)
    (fun _ => ret tt).

(** [obj[0]]; [OtherException] is [IndexError]. *)
Definition py_item_first (obj : json) : result json :=
  match obj with
  | JList (x :: _) => ok x
  | JList [] => fail OtherException
  | JStr (String c _) => ok (JStr (String c ""))
  | JStr EmptyString => fail OtherException
  | JObj _ => fail KeyError
  | _ => fail TypeError
  end.

(** [obj[-1]]; [OtherException] is [IndexError]. *)
Definition py_item_last (obj : json) : result json :=
  match obj with
  | JList [] => fail OtherException
  | JList l => ok (last l JNull)
  | JStr EmptyString => fail OtherException
  | JStr s => ok (JStr (string_skipn (String.length s - 1) s))
  | JObj _ => fail KeyError
  | _ => fail TypeError
  end.

(** [int(x)] on a float: truncation towards zero. *)
Definition py_int_of_float (x : float) : result Z :=
  match Prim2SF x with
  | S754_zero _ => ok 0
  | S754_finite s m e =>
      let n := if 0 <=? e then Zpos m * 2 ^ e else Zpos m / 2 ^ (- e) in
      ok (if s then - n else n)
  | S754_infinity _ => fail OverflowError
  | S754_nan => fail ValueError
  end.

(** [d.isoformat() if d else None] *)
Definition isoformat_or_none (d : option datetime) : json :=
  match d with
  | Some d => JStr (isoformat d)
  | None => JNull
  end.

(** Lines 313-315: [max(0, int((start + interval - now).total_seconds()))]. *)
Definition next_save_in (start now : datetime) : result json :=
  match add_us start (HISTORICAL_INTERVAL * US_PER_SECOND) with
  | None => fail OverflowError
  | Some next_save =>
      match py_int_truediv (sub_us next_save now) 1000000 with
      | inl e => fail e
      | inr remaining =>
          match py_int_of_float remaining with
          | inl e => fail e
          | inr n => ok (JInt (Z.max 0 n))
          end
      end
  end.

(** The answer of a route: a JSON body with status 200, or the error
    answer with status 500. *)
Inductive response : Type :=
| Ok200 (body : json)
| Error500 (e : exn).

(** [history_stats()]; [now] is the clock at line 314. *)
Definition history_stats (now : datetime) : M response :=
  try_except
    (hd <- gets historical_data ;;
     labels <- lift (py_getitem hd "labels") ;;
     total_points <- lift (py_len labels) ;;
     oldest_point <- (if py_truthy labels then lift (py_item_first labels)
                      else ret JNull) ;;
     newest_point <- (if py_truthy labels then lift (py_item_last labels)
                      else ret JNull) ;;
     last <- gets last_historical_save ;;
     temps <- gets temp_readings_buffer ;;
     start <- gets buffer_start_time ;;
     let stats :=
       [("total_points", JInt (Z.of_nat total_points));
        ("oldest_point", oldest_point);
        ("newest_point", newest_point);
        ("last_save", isoformat_or_none last);
        ("buffered_readings", JInt (Z.of_nat (List.length temps)));
        ("buffer_start", isoformat_or_none start);
        ("next_save_in", JNull)] in
     match start with
     | Some t0 =>
         n <- lift (next_save_in t0 now) ;;
         ret (Ok200 (JObj (dict_set "next_save_in" n stats)))
     | None => ret (Ok200 (JObj stats))
     end)
    (fun e => ret (Error500 e)).

(* ================================================================= *)
(** ** Specification vocabulary *)

(** The three sequences of a retention store: [historical_data] is a
    dictionary whose keys "labels", "temp" and "hum" hold lists. *)
Definition store_view (hd : json) : option (list json * list json * list json) :=
  match hd with
  | JObj kv =>
      match dict_get "labels" kv, dict_get "temp" kv, dict_get "hum" kv with
      | Some (JList L), Some (JList T), Some (JList H) => Some (L, T, H)
      | _, _, _ => None
      end
  | _ => None
  end.

(** The length invariant of the retention store. *)
Definition length_invariant (L T H : list json) : Prop :=
  List.length L = List.length T /\ List.length T = List.length H /\
  (List.length L <= MAX_HISTORICAL_POINTS)%nat.

(** The three sequences after lines 113-122 added the point
    [(lbl, t, h)]: each grows by one item, and when the labels then exceed
    the capacity, each is cut to its last [MAX_HISTORICAL_POINTS] items. *)
Definition appended (L T H : list json) (lbl : string) (t h : float)
  : list json * list json * list json :=
  if (MAX_HISTORICAL_POINTS <? List.length (L ++ [JStr lbl]))%nat
  then (last_n MAX_HISTORICAL_POINTS (L ++ [JStr lbl]),
        last_n MAX_HISTORICAL_POINTS (T ++ [JFloat t]),
        last_n MAX_HISTORICAL_POINTS (H ++ [JFloat h]))
  else (L ++ [JStr lbl], T ++ [JFloat t], H ++ [JFloat h]).

(** The globals after a flush at time [now] that left the history [hd]:
    the history is saved, the buffers are reset. *)
Definition flushed_state (st : state) (hd : json) (now : datetime) : state :=
  {| sensor_data := sensor_data st;
     buzzer_value := buzzer_value st;
     historical_data := hd;
     last_historical_save := Some now;
     temp_readings_buffer := [];
     humidity_readings_buffer := [];
     buffer_start_time := None;
     hist_file := Parsed (JObj [("data", hd);
                                ("last_save", JStr (isoformat now))]) |}.

(** The globals with the two buffers replaced. *)
Definition with_buffers (temps hums : list pynum) (st : state) : state :=
  set_temp_readings_buffer temps (set_humidity_readings_buffer hums st).

(** What [round(sum(xs) / len(xs), 1)] evaluates to. *)
Definition window_average (xs : list pynum) : result float :=
  match py_sum xs with
  | inr s =>
      match py_truediv_len s (List.length xs) with
      | inr avg => ok (py_round1 avg)
      | inl e => fail e
      end
  | inl e => fail e
  end.

(** Sum of integers. *)
Definition int_sum (zs : list Z) : Z := fold_right Z.add 0 zs.

(** A statement that changes neither [sensor_data] nor the buzzer, however
    it ends. *)
Definition keeps_live {A} (c : M A) : Prop :=
  forall s, sensor_data (final_state (c s)) = sensor_data s
            /\ buzzer_value (final_state (c s)) = buzzer_value s.

(** A sensor read that does not deliver both values. *)
Definition read_failed (t_read h_read : reading) : Prop :=
  match t_read, h_read with
  | Value (Some _), Value (Some _) => False
  | _, _ => True
  end.

(** A "last_save" entry that [load_historical_data] accepts: absent, falsy,
    or a string that parses. *)
Definition last_save_loads (fromisoformat : string -> option datetime)
           (kv : list (string * json)) : Prop :=
  match dict_get "last_save" kv with
  | None => True
  | Some v =>
      py_truthy v = false \/ exists d, py_fromisoformat fromisoformat v = inr d
  end.

(** *** A parser for the strings [isoformat] emits

    It stands for [datetime.fromisoformat] where a concrete parser is
    needed: YYYY-MM-DDTHH:MM:SS with an optional .ffffff. *)

Definition digit_value (c : ascii) : option Z :=
  let n := Z.of_nat (nat_of_ascii c) in
  if (48 <=? n) && (n <=? 57) then Some (n - 48) else None.

Fixpoint parse_digits (n : nat) (acc : Z) (s : string) : option (Z * string) :=
  match n with
  | O => Some (acc, s)
  | S n' =>
      match s with
      | String c rest =>
          match digit_value c with
          | Some d => parse_digits n' (acc * 10 + d) rest
          | None => None
          end
      | EmptyString => None
      end
  end.

Definition expect (c : ascii) (s : string) : option string :=
  match s with
  | String c' rest => if Ascii.eqb c c' then Some rest else None
  | EmptyString => None
  end.

Definition validb (d : datetime) : bool :=
  (1 <=? year d) && (year d <=? 9999) && (1 <=? month d) && (month d <=? 12)
  && (1 <=? day d) && (day d <=? days_in_month (year d) (month d))
  && (0 <=? hour d) && (hour d <? 24) && (0 <=? minute d) && (minute d <? 60)
  && (0 <=? second d) && (second d <? 60)
  && (0 <=? microsecond d) && (microsecond d <? 1000000).

Definition parse_fraction (s : string) : option Z :=
  match s with
  | EmptyString => Some 0
  | String c rest =>
      if Ascii.eqb c "." then
        match parse_digits 6 0 rest with
        | Some (us, EmptyString) => Some us
        | _ => None
        end
      else None
  end.

Definition parse_isoformat (s : string) : option datetime :=
  match parse_digits 4 0 s with
  | None => None
  | Some (y, s) =>
  match expect "-" s with
  | None => None
  | Some s =>
  match parse_digits 2 0 s with
  | None => None
  | Some (m, s) =>
  match expect "-" s with
  | None => None
  | Some s =>
  match parse_digits 2 0 s with
  | None => None
  | Some (d, s) =>
  match expect "T" s with
  | None => None
  | Some s =>
  match parse_digits 2 0 s with
  | None => None
  | Some (hh, s) =>
  match expect ":" s with
  | None => None
  | Some s =>
  match parse_digits 2 0 s with
  | None => None
  | Some (mm, s) =>
  match expect ":" s with
  | None => None
  | Some s =>
  match parse_digits 2 0 s with
  | None => None
  | Some (ss, s) =>
  match parse_fraction s with
  | None => None
  | Some us =>
      let d := mkDatetime y m d hh mm ss us in
      if validb d then Some d else None
  end end end end end end end end end end end end.

(** *** A parser for the labels [strftime_label] emits

    It stands for [datetime.strptime(f"{year} {label}", fmt)] where a
    concrete parser is needed: "Mon DD HH:MM AM" for the 12-hour format and
    "Mon DD HH:MM" for the 24-hour one. *)

Definition month_of_abbr (s : string) : option Z :=
  find (fun m => String.eqb (month_abbr m) s) [1; 2; 3; 4; 5; 6; 7; 8; 9; 10; 11; 12].

Definition parse_meridiem (s : string) : option bool :=
  if String.eqb s " AM" then Some false
  else if String.eqb s " PM" then Some true
  else None.

Definition parse_label (year : Z) (label : json) (fmt : string)
  : option datetime :=
  match label with
  | JStr s =>
      match month_of_abbr (substring 0 3 s) with
      | None => None
      | Some m =>
      match expect " " (string_skipn 3 s) with
      | None => None
      | Some s =>
      match parse_digits 2 0 s with
      | None => None
      | Some (d, s) =>
      match expect " " s with
      | None => None
      | Some s =>
      match parse_digits 2 0 s with
      | None => None
      | Some (hh, s) =>
      match expect ":" s with
      | None => None
      | Some s =>
      match parse_digits 2 0 s with
      | None => None
      | Some (mm, s) =>
          if String.eqb fmt "%Y %b %d %I:%M %p" then
            match parse_meridiem s with
            | Some pm =>
                let dt := mkDatetime year m d (hh mod 12 + (if pm then 12 else 0))
                                     mm 0 0 in
                if (1 <=? hh) && (hh <=? 12) && validb dt then Some dt else None
            | None => None
            end
          else if String.eqb fmt "%Y %b %d %H:%M" then
            let dt := mkDatetime year m d hh mm 0 0 in
            if String.eqb s "" && validb dt then Some dt else None
          else None
      end end end end end end end
  | _ => None
  end.

(* ================================================================= *)
(** ** Example inputs *)

(** A full history: 288 points, oldest first. *)
Definition full_history : json :=
  JObj [("labels", JList (map (fun n => JStr (pad4 (Z.of_nat n))) (seq 0 288)));
        ("temp", JList (map (fun n => JInt (Z.of_nat n)) (seq 0 288)));
        ("hum", JList (map (fun n => JInt (Z.of_nat (n + 40))) (seq 0 288)))].

(** The clock readings of the scenario of the specification. *)
Definition window_start : datetime := mkDatetime 2024 1 5 15 15 0 0.
Definition window_close : datetime := mkDatetime 2024 1 5 15 20 0 0.

(** An open window with the given readings, on an empty history. *)
Definition window_state (temps hums : list pynum) : state :=
  set_buffer_start_time (Some window_start)
    (with_buffers temps hums (initial_state Absent)).

(** The same three temperatures in two read orders. *)
Definition temps_in_order_a : list pynum :=
  [PyFloat 1e308; PyFloat 1e308; PyFloat (-1e308)].
Definition temps_in_order_b : list pynum :=
  [PyFloat 1e308; PyFloat (-1e308); PyFloat 1e308].
Definition three_humidities : list pynum := [PyInt 50; PyInt 52; PyInt 51].

(** Four temperatures of everyday magnitude in two read orders. *)
Definition room_temps_a : list pynum :=
  [PyFloat 23.3; PyFloat 37.0; PyFloat 21.5; PyFloat 21.6].
Definition room_temps_b : list pynum :=
  [PyFloat 37.0; PyFloat 21.5; PyFloat 21.6; PyFloat 23.3].

(** A history longer than the capacity: 300 points. *)
Definition overlong_labels : list json :=
  map (fun n => JStr (pad4 (Z.of_nat n))) (seq 0 300).
Definition overlong_temps : list json :=
  map (fun n => JInt (Z.of_nat n)) (seq 0 300).
Definition overlong_hums : list json :=
  map (fun n => JInt (Z.of_nat (n + 40))) (seq 0 300).
Definition overlong_file : list (string * json) :=
  [("data", JObj [("labels", JList overlong_labels);
                  ("temp", JList overlong_temps);
                  ("hum", JList overlong_hums)]);
   ("last_save", JStr "2024-01-05T15:20:00")].

(** A file whose "last_save" entry is not a timestamp. *)
Definition bad_last_save_file : list (string * json) :=
  [("data", JObj [("labels", JList [JStr "Jan 05 03:17 PM"]);
                  ("temp", JList [JFloat 26.0]);
                  ("hum", JList [JFloat 51.0])]);
   ("last_save", JStr "yesterday")].

(** A store saved at [window_close]. *)
Definition saved_store : state :=
  set_last_historical_save (Some window_close)
    (set_historical_data full_history (initial_state Absent)).

(** A store whose labels are all older than 24 hours on 2024-01-05 15:20,
    one of them in the old 24-hour format and one that is no label. *)
Definition stale_labels : list json :=
  [JStr "Jan 01 10:00 AM"; JStr "Jan 02 22:30"; JStr "n/a";
   JStr "Jan 04 03:19 PM"].
Definition stale_store : state :=
  set_historical_data
    (JObj [("labels", JList stale_labels);
           ("temp", JList [JFloat 20.0; JFloat 21.0; JFloat 22.0; JFloat 23.0]);
           ("hum", JList [JFloat 50.0; JFloat 51.0; JFloat 52.0; JFloat 53.0])])
    (initial_state Absent).

(** The live state after a first reading, and after a failed read that
    follows it. *)
Definition after_first_reading : state :=
  final_state
    (sensor_loop_body (Value (Some (PyFloat 25.0))) (Value (Some (PyInt 50)))
                      window_start window_start window_start
                      (initial_state Absent)).
Definition after_failed_read : state :=
  final_state
    (sensor_loop_body ReadRuntimeError (Value None)
                      window_start window_start window_start
                      after_first_reading).

(* ================================================================= *)
(** ** Invariants of the running program *)

(** The history is a retention store within its capacity. *)
Definition store_invariant (st : state) : Prop :=
  exists L T H,
    store_view (historical_data st) = Some (L, T, H) /\ length_invariant L T H.

(** The two reading buffers go in pairs, and readings are buffered only
    while a window is open. *)
Definition buffers_paired (st : state) : Prop :=
  List.length (temp_readings_buffer st)
  = List.length (humidity_readings_buffer st) /\
  (buffer_start_time st = None -> temp_readings_buffer st = []).

(** The buzzer state reported in [sensor_data] is the one of the pin. *)
Definition buzzer_reported (st : state) : Prop :=
  buzzer (sensor_data st) = if buzzer_value st then "ON" else "OFF".

(** Everything but [historical_data]. *)
Definition frame_of_history (st : state) :=
  (sensor_data st, buzzer_value st, last_historical_save st,
   temp_readings_buffer st, humidity_readings_buffer st,
   buffer_start_time st, hist_file st).

(** A statement that leaves the projection [f] of the globals as it was,
    however it ends. *)
Definition keeps {X A} (f : state -> X) (c : M A) : Prop :=
  forall s, f (final_state (c s)) = f s.

(** The history holds the last [MAX_HISTORICAL_POINTS] points of an
    older history [(L, T, H)] followed by at most [n] added points. *)
Definition extends_store (n : nat) (L T H : list json) (st : state) : Prop :=
  exists added_L added_T added_H,
    (List.length added_L <= n)%nat /\
    List.length added_L = List.length added_T /\
    List.length added_T = List.length added_H /\
    store_view (historical_data st)
    = Some (last_n MAX_HISTORICAL_POINTS (L ++ added_L),
            last_n MAX_HISTORICAL_POINTS (T ++ added_T),
            last_n MAX_HISTORICAL_POINTS (H ++ added_H)).

(** The history holds an older history [(L, T, H)] without its first [k]
    points, for some [k]. *)
Definition suffix_of_store (L T H : list json) (st : state) : Prop :=
  exists k,
    store_view (historical_data st) = Some (skipn k L, skipn k T, skipn k H).

(** The three readings of the scenario, buffered in an open window. *)
Definition scenario_state : state :=
  window_state [PyFloat 25.0; PyFloat 26.0; PyFloat 27.0] three_humidities.

(** Two readings, a failed read, and a reading that closes the window. *)
Definition example_ticks : list tick :=
  [mkTick (Value (Some (PyFloat 25.0))) (Value (Some (PyInt 50)))
          window_start window_start window_start;
   mkTick (Value (Some (PyFloat 39.5))) (Value (Some (PyInt 52)))
          (mkDatetime 2024 1 5 15 17 0 0) (mkDatetime 2024 1 5 15 17 0 0)
          (mkDatetime 2024 1 5 15 17 0 0);
   mkTick ReadRuntimeError (Value None)
          (mkDatetime 2024 1 5 15 18 0 0) (mkDatetime 2024 1 5 15 18 0 0)
          (mkDatetime 2024 1 5 15 18 0 0);
   mkTick (Value (Some (PyFloat 27.0))) (Value (Some (PyInt 51)))
          window_close window_close window_close].

(** A history that lost its "temp" and "hum" sequences, with a window about
    to close. *)
Definition labels_only : list (string * json) := [("labels", JList [])].
Definition broken_state : state :=
  set_historical_data (JObj labels_only)
    (window_state [PyFloat 25.0] [PyInt 50]).

(** A store with two stale labels, a recent one and a stale one after it,
    cleaned on 2024-01-05 at 15:20:00. *)
Definition mixed_labels_old : list json := [JStr "Jan 01 10:00 AM"; JStr "n/a"].
Definition mixed_label_recent : json := JStr "Jan 05 03:17 PM".
Definition mixed_labels_rest : list json := [JStr "Jan 02 10:00 AM"].
Definition mixed_temps : list json :=
  [JFloat 20.0; JFloat 21.0; JFloat 22.0; JFloat 23.0].
Definition mixed_hums : list json :=
  [JFloat 50.0; JFloat 51.0; JFloat 52.0; JFloat 53.0].
Definition mixed_store : state :=
  set_historical_data
    (JObj [("labels",
            JList (mixed_labels_old ++ mixed_label_recent :: mixed_labels_rest));
           ("temp", JList mixed_temps);
           ("hum", JList mixed_hums)])
    (initial_state Absent).

(** The globals after [cleanup] on the scenario. *)
Definition after_cleanup : state :=
  final_state (cleanup window_close true scenario_state).

(** A file without a "data" entry. *)
Definition last_save_only_file : list (string * json) :=
  [("last_save", JStr "2024-01-05T15:20:00")].

(** A history file whose "data" has its labels only, and two runs of the
    sensor loop over a window: a reading of 25.0 and then one of 40.0 that
    closes the window, and a reading of 40.0 and then one of 20.0 that
    closes it. *)
Definition labels_only_file : file :=
  Parsed (JObj [("data", JObj labels_only)]).
Definition warm_then_hot : list tick :=
  [mkTick (Value (Some (PyFloat 25.0))) (Value (Some (PyInt 50)))
          window_start window_start window_start;
   mkTick (Value (Some (PyFloat 40.0))) (Value (Some (PyInt 51)))
          window_close window_close window_close].
Definition hot_then_cool : list tick :=
  [mkTick (Value (Some (PyFloat 40.0))) (Value (Some (PyInt 50)))
          window_start window_start window_start;
   mkTick (Value (Some (PyFloat 20.0))) (Value (Some (PyInt 51)))
          window_close window_close window_close].

(** The scenario with the buzzer on, and the globals after a [cleanup] that
    could not write the pin. *)
Definition alarm_state : state := set_buzzer_value true scenario_state.
Definition after_cleanup_without_pin : state :=
  final_state (cleanup window_close false alarm_state).

(* ================================================================= *)
(** ** Basic facts *)

(** *** Statements *)

Lemma bind_returns {A B} (c : M A) (k : A -> M B) s a s' :
  c s = Returns a s' -> bind c k s = k a s'.
Proof. intros Hc. unfold bind. now rewrite Hc. Qed.

Lemma bind_raises {A B} (c : M A) (k : A -> M B) s e s' :
  c s = Raises e s' -> bind c k s = Raises e s'.
Proof. intros Hc. unfold bind. now rewrite Hc. Qed.

Lemma try_except_returns {A} (c : M A) h s a s' :
  c s = Returns a s' -> try_except c h s = Returns a s'.
Proof. intros Hc. unfold try_except. now rewrite Hc. Qed.

Lemma try_except_raises {A} (c : M A) h s e s' :
  c s = Raises e s' -> try_except c h s = h e s'.
Proof. intros Hc. unfold try_except. now rewrite Hc. Qed.

(** *** Lists *)

Lemma last_n_length {A} n (xs : list A) :
  List.length (last_n n xs) = Nat.min n (List.length xs).
Proof. unfold last_n. rewrite length_skipn. lia. Qed.

Lemma last_n_short {A} n (xs : list A) :
  (List.length xs <= n)%nat -> last_n n xs = xs.
Proof.
  intros Hle. unfold last_n.
  replace (List.length xs - n)%nat with 0%nat by lia. reflexivity.
Qed.

Lemma last_n_snoc_full {A} n (xs : list A) x :
  List.length xs = n -> n <> 0%nat -> last_n n (xs ++ [x]) = tl xs ++ [x].
Proof.
  intros Hlen Hn. unfold last_n. rewrite length_app. simpl.
  replace (List.length xs + 1 - n)%nat with 1%nat by lia.
  destruct xs as [|y ys]; [simpl in Hlen; congruence|]. reflexivity.
Qed.

(** *** Dictionaries *)

Lemma dict_get_set k' k v kv :
  dict_get k' (dict_set k v kv)
  = if String.eqb k' k then Some v else dict_get k' kv.
Proof.
  induction kv as [|[k0 v0] rest IH]; simpl.
  - destruct (String.eqb k' k); reflexivity.
  - destruct (String.eqb k k0) eqn:Hk; simpl.
    + apply String.eqb_eq in Hk. subst k0.
      destruct (String.eqb k' k); reflexivity.
    + rewrite IH. destruct (String.eqb k' k) eqn:Hk'; [|reflexivity].
      apply String.eqb_eq in Hk'. subst k'. now rewrite Hk.
Qed.

Lemma store_view_inv hd L T H :
  store_view hd = Some (L, T, H) ->
  exists kv, hd = JObj kv /\ dict_get "labels" kv = Some (JList L)
             /\ dict_get "temp" kv = Some (JList T)
             /\ dict_get "hum" kv = Some (JList H).
Proof.
  intros Hv. destruct hd as [| | | | | |kv]; try discriminate.
  simpl in Hv.
  repeat match type of Hv with
         | context [match ?x with _ => _ end] =>
             destruct x eqn:?; try discriminate
         end.
  inversion Hv. subst. exists kv. auto.
Qed.

Lemma store_view_obj kv L T H :
  dict_get "labels" kv = Some (JList L) ->
  dict_get "temp" kv = Some (JList T) ->
  dict_get "hum" kv = Some (JList H) ->
  store_view (JObj kv) = Some (L, T, H).
Proof. intros Hl Ht Hh. simpl. now rewrite Hl, Ht, Hh. Qed.

Lemma store_view_empty : store_view empty_history = Some ([], [], []).
Proof. reflexivity. Qed.

(** *** Updates of one sequence of the history *)

Lemma history_append_obj st kv key l x :
  historical_data st = JObj kv ->
  dict_get key kv = Some (JList l) ->
  history_append key x st
  = Returns tt (set_historical_data (JObj (dict_set key (JList (l ++ [x])) kv)) st).
Proof.
  intros Hhd Hk. unfold history_append, bind, gets, lift, modify, ret.
  rewrite Hhd. simpl. rewrite Hk. reflexivity.
Qed.

Lemma history_keep_last_obj st kv key l :
  historical_data st = JObj kv ->
  dict_get key kv = Some (JList l) ->
  history_keep_last key st
  = Returns tt (set_historical_data
                  (JObj (dict_set key (JList (last_n MAX_HISTORICAL_POINTS l)) kv)) st).
Proof.
  intros Hhd Hk. unfold history_keep_last, bind, gets, lift, modify, ret.
  rewrite Hhd. simpl. rewrite Hk. reflexivity.
Qed.

Lemma history_drop_before_obj st kv key l n :
  historical_data st = JObj kv ->
  dict_get key kv = Some (JList l) ->
  history_drop_before n key st
  = Returns tt (set_historical_data (JObj (dict_set key (JList (skipn n l)) kv)) st).
Proof.
  intros Hhd Hk. unfold history_drop_before, bind, gets, lift, modify, ret.
  rewrite Hhd. simpl. rewrite Hk. reflexivity.
Qed.

(** The effect of [append_point] on the three sequences; the new history
    depends on the old one and on the point only. *)
Lemma append_point_view hd L T H lbl t h :
  store_view hd = Some (L, T, H) ->
  exists hd',
    store_view hd' = Some (appended L T H lbl t h) /\
    forall st, historical_data st = hd ->
               append_point lbl t h st = Returns tt (set_historical_data hd' st).
Proof.
  intros Hv. unfold appended. apply store_view_inv in Hv.
  destruct Hv as (kv & Hhd & Hl & Ht & Hh).
  pose (kv3 := dict_set "hum" (JList (H ++ [JFloat h]))
                 (dict_set "temp" (JList (T ++ [JFloat t]))
                    (dict_set "labels" (JList (L ++ [JStr lbl])) kv))).
  assert (Hl3 : dict_get "labels" kv3 = Some (JList (L ++ [JStr lbl]))).
  { unfold kv3. now rewrite !dict_get_set. }
  assert (Ht3 : dict_get "temp" kv3 = Some (JList (T ++ [JFloat t]))).
  { unfold kv3. now rewrite !dict_get_set. }
  assert (Hh3 : dict_get "hum" kv3 = Some (JList (H ++ [JFloat h]))).
  { unfold kv3. now rewrite !dict_get_set. }
  assert (Hgrow : forall st, historical_data st = hd ->
            (history_append "labels" (JStr lbl) ;;
             history_append "temp" (JFloat t) ;;
             history_append "hum" (JFloat h)) st
            = Returns tt (set_historical_data (JObj kv3) st)).
  { intros st Hst. rewrite Hhd in Hst.
    erewrite bind_returns by (eapply history_append_obj; eauto).
    cbv beta.
    erewrite bind_returns
      by (eapply history_append_obj; [cbn; reflexivity|];
          rewrite dict_get_set; simpl; exact Ht).
    cbv beta.
    erewrite history_append_obj;
      [reflexivity | cbn; reflexivity | rewrite !dict_get_set; simpl; exact Hh]. }
  destruct (MAX_HISTORICAL_POINTS <? List.length (L ++ [JStr lbl]))%nat eqn:Hfull.
  - pose (kv6 := dict_set "hum"
                   (JList (last_n MAX_HISTORICAL_POINTS (H ++ [JFloat h])))
                   (dict_set "temp"
                      (JList (last_n MAX_HISTORICAL_POINTS (T ++ [JFloat t])))
                      (dict_set "labels"
                         (JList (last_n MAX_HISTORICAL_POINTS (L ++ [JStr lbl])))
                         kv3))).
    exists (JObj kv6). split.
    + apply store_view_obj; unfold kv6; now rewrite !dict_get_set.
    + intros st Hst. unfold append_point.
      pose proof (Hgrow st Hst) as Hg. unfold bind at 1 2 in Hg.
      unfold bind at 1 2 3.
      destruct (history_append "labels" (JStr lbl) st) as [[] s1|]; [|discriminate].
      destruct (history_append "temp" (JFloat t) s1) as [[] s2|]; [|discriminate].
      rewrite Hg.
      unfold bind at 1, gets at 1. cbn [historical_data set_historical_data].
      unfold bind at 1, lift at 1, py_getitem. rewrite Hl3. unfold ok, ret at 1.
      unfold bind at 1, lift at 1, py_len, ok, ret at 1. rewrite Hfull.
      erewrite bind_returns
        by (eapply history_keep_last_obj; [cbn; reflexivity|exact Hl3]).
      cbv beta.
      erewrite bind_returns
        by (eapply history_keep_last_obj; [cbn; reflexivity|];
            rewrite dict_get_set; simpl; exact Ht3).
      cbv beta. unfold kv6.
      erewrite history_keep_last_obj;
        [reflexivity | cbn; reflexivity | rewrite !dict_get_set; simpl; exact Hh3].
  - exists (JObj kv3). split; [now apply store_view_obj|].
    intros st Hst. unfold append_point.
    pose proof (Hgrow st Hst) as Hg. unfold bind at 1 2 in Hg.
    unfold bind at 1 2 3.
    destruct (history_append "labels" (JStr lbl) st) as [[] s1|]; [|discriminate].
    destruct (history_append "temp" (JFloat t) s1) as [[] s2|]; [|discriminate].
    rewrite Hg.
    unfold bind at 1, gets at 1. cbn [historical_data set_historical_data].
    unfold bind at 1, lift at 1, py_getitem. rewrite Hl3. unfold ok, ret at 1.
    unfold bind at 1, lift at 1, py_len, ok, ret at 1. rewrite Hfull.
    reflexivity.
Qed.

Lemma appended_invariant L T H lbl t h :
  length_invariant L T H ->
  appended L T H lbl t h
  = (last_n MAX_HISTORICAL_POINTS (L ++ [JStr lbl]),
     last_n MAX_HISTORICAL_POINTS (T ++ [JFloat t]),
     last_n MAX_HISTORICAL_POINTS (H ++ [JFloat h])).
Proof.
  intros (HLT & HTH & Hle). unfold appended.
  destruct (MAX_HISTORICAL_POINTS <? List.length (L ++ [JStr lbl]))%nat eqn:E;
    [reflexivity|].
  apply Nat.ltb_ge in E. rewrite length_app in E. simpl in E.
  rewrite !last_n_short; [reflexivity | ..]; rewrite length_app; simpl; lia.
Qed.

(** The effect of a flush on a well-formed history: the point
    (label of the middle of the period, the two window averages) is added,
    the history is saved and the buffers are reset. *)
Lemma save_averaged_data_view hd L T H avg_t avg_h mid :
  store_view hd = Some (L, T, H) ->
  exists hd',
    store_view hd' = Some (appended L T H (strftime_label mid) avg_t avg_h) /\
    forall st now,
      historical_data st = hd ->
      temp_readings_buffer st <> [] ->
      humidity_readings_buffer st <> [] ->
      window_average (temp_readings_buffer st) = inr avg_t ->
      window_average (humidity_readings_buffer st) = inr avg_h ->
      middle_of_period (buffer_start_time st) = inr mid ->
      save_averaged_data now st = Returns true (flushed_state st hd' now).
Proof.
  intros Hv.
  destruct (append_point_view hd L T H (strftime_label mid) avg_t avg_h Hv)
    as (hd' & Hv' & Happ).
  exists hd'. split; [exact Hv'|].
  intros st now Hhd Ht Hh Hat Hah Hmid.
  unfold window_average in Hat, Hah.
  destruct (py_sum (temp_readings_buffer st)) as [|sum_t] eqn:Est;
    [discriminate|].
  destruct (py_truediv_len sum_t _) as [|a_t] eqn:Eat; [discriminate|].
  destruct (py_sum (humidity_readings_buffer st)) as [|sum_h] eqn:Esh;
    [discriminate|].
  destruct (py_truediv_len sum_h _) as [|a_h] eqn:Eah; [discriminate|].
  injection Hat as <-. injection Hah as <-.
  unfold save_averaged_data, bind at 1, gets at 1.
  unfold bind at 1, gets at 1.
  destruct (temp_readings_buffer st) as [|t0 ts] eqn:Ets; [congruence|].
  destruct (humidity_readings_buffer st) as [|h0 hs] eqn:Ehs; [congruence|].
  unfold bind at 1, lift at 1. rewrite Est. unfold ret at 1.
  unfold bind at 1, lift at 1. rewrite Eat. unfold ret at 1.
  unfold bind at 1, lift at 1. rewrite Esh. unfold ret at 1.
  unfold bind at 1, lift at 1. rewrite Eah. unfold ret at 1.
  unfold bind at 1, gets at 1.
  unfold bind at 1, lift at 1. rewrite Hmid. unfold ret at 1.
  erewrite bind_returns by (apply Happ; exact Hhd).
  reflexivity.
Qed.

(* ================================================================= *)
(** ** The retention store stays within its capacity *)

(** C1. For a history whose three sequences have equal length, at most
    [MAX_HISTORICAL_POINTS], adding a point (lines 113-122) completes and
    leaves three sequences of equal length, at most [MAX_HISTORICAL_POINTS]:
    the last [MAX_HISTORICAL_POINTS] items of the old sequences extended by
    the point.  When the history was full, each sequence loses exactly its
    first (oldest) item and keeps the others in order, followed by the new
    one. *)
Theorem append_point_keeps_capacity st L T H lbl t h :
  store_view (historical_data st) = Some (L, T, H) ->
  length_invariant L T H ->
  exists hd' L' T' H',
    append_point lbl t h st = Returns tt (set_historical_data hd' st) /\
    store_view hd' = Some (L', T', H') /\
    length_invariant L' T' H' /\
    L' = last_n MAX_HISTORICAL_POINTS (L ++ [JStr lbl]) /\
    T' = last_n MAX_HISTORICAL_POINTS (T ++ [JFloat t]) /\
    H' = last_n MAX_HISTORICAL_POINTS (H ++ [JFloat h]) /\
    (List.length L = MAX_HISTORICAL_POINTS ->
     L' = tl L ++ [JStr lbl] /\ T' = tl T ++ [JFloat t]
     /\ H' = tl H ++ [JFloat h]).
Proof.
  intros Hv Hinv.
  destruct (append_point_view _ L T H lbl t h Hv) as (hd' & Hv' & Happ).
  specialize (Happ st eq_refl).
  rewrite (appended_invariant _ _ _ _ _ _ Hinv) in Hv'.
  destruct Hinv as (HLT & HTH & Hle).
  exists hd', (last_n MAX_HISTORICAL_POINTS (L ++ [JStr lbl])),
    (last_n MAX_HISTORICAL_POINTS (T ++ [JFloat t])),
    (last_n MAX_HISTORICAL_POINTS (H ++ [JFloat h])).
  repeat split; try assumption; try reflexivity.
  - rewrite !last_n_length, !length_app. cbn [List.length]. lia.
  - rewrite !last_n_length, !length_app. cbn [List.length]. lia.
  - rewrite last_n_length. lia.
  - apply last_n_snoc_full; [assumption | discriminate].
  - apply last_n_snoc_full; [lia | discriminate].
  - apply last_n_snoc_full; [lia | discriminate].
Qed.


(* ================================================================= *)
(** ** The flush of a window *)

(** C2. With the readings (25.0, 50), (26.0, 52), (27.0, 51) in the buffers
    and the window opened at 2024-01-05T15:15:00, the flush adds exactly the
    point ("Jan 05 03:17 PM", 26.0, 51.0) to the history, saves it and resets
    the buffers; the label is the window start plus 150 seconds (half of
    [HISTORICAL_INTERVAL] = 300), 15:17:30, in the format "%b %d %I:%M %p". *)
Theorem flush_scenario st now L T H :
  store_view (historical_data st) = Some (L, T, H) ->
  temp_readings_buffer st = [PyFloat 25.0; PyFloat 26.0; PyFloat 27.0] ->
  humidity_readings_buffer st = [PyInt 50; PyInt 52; PyInt 51] ->
  buffer_start_time st = Some (mkDatetime 2024 1 5 15 15 0 0) ->
  exists hd',
    save_averaged_data now st = Returns true (flushed_state st hd' now) /\
    store_view hd' = Some (appended L T H "Jan 05 03:17 PM" 26.0 51.0) /\
    HISTORICAL_INTERVAL = 300 /\
    middle_of_period (buffer_start_time st)
    = inr (mkDatetime 2024 1 5 15 17 30 0) /\
    strftime_label (mkDatetime 2024 1 5 15 17 30 0) = "Jan 05 03:17 PM".
Proof.
  intros Hv Ht Hh Hstart.
  destruct (save_averaged_data_view _ L T H 26.0%float 51.0%float
              (mkDatetime 2024 1 5 15 17 30 0) Hv) as (hd' & Hv' & Hsave).
  exists hd'. split; [|split; [exact Hv'|]].
  - apply Hsave; rewrite ?Ht, ?Hh, ?Hstart;
      try discriminate; try reflexivity; vm_compute; reflexivity.
  - rewrite Hstart. repeat split; vm_compute; reflexivity.
Qed.

(** The sum of integer readings is the exact integer sum. *)
Lemma py_sum_from_ints a zs :
  py_sum_from (PyInt a) (map PyInt zs) = inr (PyInt (a + int_sum zs)).
Proof.
  revert a. induction zs as [|z zs IH]; intros a; simpl.
  - now rewrite Z.add_0_r.
  - rewrite IH. now rewrite Z.add_assoc.
Qed.

Lemma int_sum_permutation zs zs' :
  Permutation zs zs' -> int_sum zs = int_sum zs'.
Proof.
  induction 1; simpl; lia.
Qed.

(** For integer readings the window average is the correctly rounded
    quotient of the exact sum by the count, rounded to one decimal. *)
Lemma window_average_ints zs :
  window_average (map PyInt zs)
  = match py_truediv_len (PyInt (int_sum zs)) (List.length zs) with
    | inr avg => inr (py_round1 avg)
    | inl e => inl e
    end.
Proof.
  unfold window_average, py_sum. rewrite py_sum_from_ints, length_map.
  reflexivity.
Qed.

Lemma window_average_ints_permutation zs zs' :
  Permutation zs zs' ->
  window_average (map PyInt zs) = window_average (map PyInt zs').
Proof.
  intros Hp. rewrite !window_average_ints.
  now rewrite (int_sum_permutation _ _ Hp), (Permutation_length Hp).
Qed.

(** C3 (as amended). For every non-empty window on a well-formed history,
    the flush stores [round(sum(temps)/len(temps), 1)] and
    [round(sum(hums)/len(hums), 1)] as Python's arithmetic computes them
    (binary64, summed from left to right).  When the readings are integers
    the sum is exact, and the flush of every permutation of the readings
    stores the same point. *)
Theorem flush_stores_window_averages st now L T H temps hums avg_t avg_h mid :
  store_view (historical_data st) = Some (L, T, H) ->
  middle_of_period (buffer_start_time st) = inr mid ->
  temps <> [] -> hums <> [] ->
  window_average temps = inr avg_t ->
  window_average hums = inr avg_h ->
  exists hd',
    store_view hd' = Some (appended L T H (strftime_label mid) avg_t avg_h) /\
    save_averaged_data now (with_buffers temps hums st)
    = Returns true (flushed_state st hd' now) /\
    forall ts hs ts' hs',
      temps = map PyInt ts -> hums = map PyInt hs ->
      Permutation ts ts' -> Permutation hs hs' ->
      save_averaged_data now (with_buffers (map PyInt ts') (map PyInt hs') st)
      = Returns true (flushed_state st hd' now).
Proof.
  intros Hv Hmid Hne_t Hne_h Hat Hah.
  destruct (save_averaged_data_view _ L T H avg_t avg_h mid Hv)
    as (hd' & Hv' & Hsave).
  exists hd'. split; [exact Hv'|]. split.
  - apply (Hsave (with_buffers temps hums st) now); auto.
  - intros ts hs ts' hs' -> -> Hpt Hph.
    apply (Hsave (with_buffers (map PyInt ts') (map PyInt hs') st) now);
      cbn [with_buffers temp_readings_buffer humidity_readings_buffer
           set_temp_readings_buffer set_humidity_readings_buffer
           historical_data buffer_start_time]; auto.
    + intros E. apply map_eq_nil in E. subst ts'.
      apply Permutation_sym, Permutation_nil in Hpt. subst ts. now apply Hne_t.
    + intros E. apply map_eq_nil in E. subst hs'.
      apply Permutation_sym, Permutation_nil in Hph. subst hs. now apply Hne_h.
    + now rewrite <- (window_average_ints_permutation _ _ Hpt).
    + now rewrite <- (window_average_ints_permutation _ _ Hph).
Qed.

(** C3 as stated fails for float readings: the same three temperatures in
    two read orders give two different stored averages, and the first is not
    the mean of the readings (which is finite).  In the first order the
    partial sum 1e308 + 1e308 overflows to infinity; in the second no partial
    sum exceeds 1e308. *)
Lemma flush_depends_on_read_order :
  Permutation temps_in_order_a temps_in_order_b /\
  store_view (historical_data (final_state
    (save_averaged_data window_close
       (window_state temps_in_order_a three_humidities))))
  = Some ([JStr "Jan 05 03:17 PM"], [JFloat infinity], [JFloat 51.0]) /\
  store_view (historical_data (final_state
    (save_averaged_data window_close
       (window_state temps_in_order_b three_humidities))))
  = Some ([JStr "Jan 05 03:17 PM"], [JFloat 0x1.7bbef5d3a60d5p+1021],
          [JFloat 51.0]) /\
  JFloat infinity <> JFloat 0x1.7bbef5d3a60d5p+1021.
Proof.
  split; [|split; [|split]].
  - unfold temps_in_order_a, temps_in_order_b.
    apply perm_skip, perm_swap.
  - vm_compute. reflexivity.
  - vm_compute. reflexivity.
  - intros E.
    apply (f_equal (fun j => match j with
                             | JFloat f => PrimFloat.is_infinity f
                             | _ => false
                             end)) in E.
    vm_compute in E. discriminate.
Qed.

(** The same happens at everyday magnitudes: 25.9 in one read order, 25.8 in
    another. *)
Lemma flush_depends_on_read_order_room :
  Permutation room_temps_a room_temps_b /\
  window_average room_temps_a = inr 25.9%float /\
  window_average room_temps_b = inr 25.8%float.
Proof.
  split; [|split]; [|vm_compute; reflexivity..].
  unfold room_temps_a, room_temps_b.
  change [PyFloat 37.0; PyFloat 21.5; PyFloat 21.6; PyFloat 23.3]
    with ([PyFloat 37.0; PyFloat 21.5; PyFloat 21.6] ++ [PyFloat 23.3]).
  apply Permutation_cons_append.
Qed.

(* ================================================================= *)
(** ** Clearing the history *)

(** C9. Whatever the globals are, [clear_history] answers "success" and
    leaves an empty history, no last save, no history file, and also an
    empty averaging buffer: both reading buffers are empty and no window is
    open, so a partially accumulated window is discarded.  The live sensor
    data and the buzzer are not touched. *)
Theorem clear_history_resets_buffer st :
  clear_history st
  = Returns ("success", 200)
      {| sensor_data := sensor_data st;
         buzzer_value := buzzer_value st;
         historical_data := empty_history;
         last_historical_save := None;
         temp_readings_buffer := [];
         humidity_readings_buffer := [];
         buffer_start_time := None;
         hist_file := Absent |}
  /\ store_view empty_history = Some ([], [], []).
Proof.
  split; [|reflexivity].
  destruct st as [sd bv hd last temps hums start f].
  unfold clear_history, try_except, bind, modify, gets, ret.
  destruct f; reflexivity.
Qed.

(* ================================================================= *)
(** ** What the history functions leave alone *)

Lemma keeps_live_ret {A} (a : A) : keeps_live (ret a).
Proof. intros s. split; reflexivity. Qed.

Lemma keeps_live_raise {A} e : keeps_live (@raise A e).
Proof. intros s. split; reflexivity. Qed.

Lemma keeps_live_gets {A} (f : state -> A) : keeps_live (gets f).
Proof. intros s. split; reflexivity. Qed.

Lemma keeps_live_lift {A} (r : result A) : keeps_live (lift r).
Proof. destruct r; intros s; split; reflexivity. Qed.

Lemma keeps_live_bind {A B} (c : M A) (k : A -> M B) :
  keeps_live c -> (forall a, keeps_live (k a)) -> keeps_live (bind c k).
Proof.
  intros Hc Hk s. unfold bind. specialize (Hc s).
  destruct (c s) as [a s'|e s']; simpl in Hc.
  - destruct (Hk a s') as [H1 H2]. rewrite H1, H2. exact Hc.
  - exact Hc.
Qed.

Lemma keeps_live_modify f :
  (forall s, sensor_data (f s) = sensor_data s) ->
  (forall s, buzzer_value (f s) = buzzer_value s) ->
  keeps_live (modify f).
Proof. intros H1 H2 s. split; simpl; auto. Qed.

Ltac keeps_live_step :=
  first
    [ apply keeps_live_ret | apply keeps_live_raise | apply keeps_live_gets
    | apply keeps_live_lift
    | apply keeps_live_modify; intros; reflexivity
    | apply keeps_live_bind; [|intros ?]
    | match goal with
      | |- keeps_live (match ?x with _ => _ end) => destruct x
      end ].

Lemma keeps_live_history_append key x : keeps_live (history_append key x).
Proof. unfold history_append. repeat keeps_live_step. Qed.

Lemma keeps_live_history_keep_last key : keeps_live (history_keep_last key).
Proof. unfold history_keep_last. repeat keeps_live_step. Qed.

Lemma keeps_live_save_historical_data : keeps_live save_historical_data.
Proof. unfold save_historical_data. repeat keeps_live_step. Qed.

Lemma keeps_live_append_point lbl t h : keeps_live (append_point lbl t h).
Proof.
  unfold append_point.
  repeat first [apply keeps_live_history_append
               | apply keeps_live_history_keep_last | keeps_live_step].
Qed.

Lemma keeps_live_save_averaged_data now : keeps_live (save_averaged_data now).
Proof.
  unfold save_averaged_data.
  repeat first [apply keeps_live_append_point
               | apply keeps_live_save_historical_data | keeps_live_step].
Qed.

Lemma keeps_live_add_to_buffer now now_save t h :
  keeps_live (add_to_buffer now now_save t h).
Proof.
  unfold add_to_buffer.
  repeat first [apply keeps_live_save_averaged_data | keeps_live_step].
Qed.

(** While the window stays open, buffering a reading cannot raise. *)
Lemma add_to_buffer_open_window st now now_save t h t0 :
  buffer_start_time st = Some t0 ->
  total_seconds_ge (sub_us now t0) HISTORICAL_INTERVAL = false ->
  add_to_buffer now now_save t h st
  = Returns tt (with_buffers (temp_readings_buffer st ++ [t])
                             (humidity_readings_buffer st ++ [h]) st).
Proof.
  intros Hstart Hopen.
  unfold add_to_buffer, bind, gets, modify, ret.
  rewrite Hstart.
  cbn [buffer_start_time set_humidity_readings_buffer set_temp_readings_buffer
       temp_readings_buffer humidity_readings_buffer].
  rewrite Hstart, Hopen. reflexivity.
Qed.

(** A reading that opens a window is buffered without raising. *)
Lemma add_to_buffer_new_window st now now_save t h :
  buffer_start_time st = None ->
  add_to_buffer now now_save t h st
  = Returns tt (set_buffer_start_time (Some now)
                  (with_buffers (temp_readings_buffer st ++ [t])
                                (humidity_readings_buffer st ++ [h]) st)).
Proof.
  intros Hstart.
  unfold add_to_buffer, bind, gets, modify, ret.
  rewrite Hstart.
  cbn [buffer_start_time set_buffer_start_time set_humidity_readings_buffer
       set_temp_readings_buffer temp_readings_buffer humidity_readings_buffer].
  unfold total_seconds_ge, sub_us. rewrite Z.sub_diag. reflexivity.
Qed.

(** A reading that closes the window is buffered and flushed without
    raising when the history is well formed, the two averages can be
    computed and the middle of the period is a datetime. *)
Lemma add_to_buffer_closing_window st now now_save t h t0 L T H avg_t avg_h mid :
  buffer_start_time st = Some t0 ->
  total_seconds_ge (sub_us now t0) HISTORICAL_INTERVAL = true ->
  store_view (historical_data st) = Some (L, T, H) ->
  window_average (temp_readings_buffer st ++ [t]) = inr avg_t ->
  window_average (humidity_readings_buffer st ++ [h]) = inr avg_h ->
  middle_of_period (Some t0) = inr mid ->
  exists hd',
    add_to_buffer now now_save t h st
    = Returns tt (flushed_state st hd' now_save) /\
    store_view hd' = Some (appended L T H (strftime_label mid) avg_t avg_h).
Proof.
  intros Hstart Hclose Hv Hat Hah Hmid.
  destruct (save_averaged_data_view _ L T H avg_t avg_h mid Hv)
    as (hd' & Hv' & Hsave).
  exists hd'. split; [|exact Hv'].
  unfold add_to_buffer.
  unfold bind at 1, gets at 1. rewrite Hstart.
  unfold bind at 1, ret at 1.
  unfold bind at 1, gets at 1. unfold bind at 1, modify at 1.
  unfold bind at 1, gets at 1. unfold bind at 1, modify at 1.
  unfold bind at 1, gets at 1.
  cbn [buffer_start_time set_humidity_readings_buffer set_temp_readings_buffer
       temp_readings_buffer humidity_readings_buffer].
  rewrite Hstart, Hclose.
  match goal with
  | |- bind (save_averaged_data _) _ ?s = _ =>
      rewrite (bind_returns _ _ s true (flushed_state s hd' now_save));
        [reflexivity|]
  end.
  apply Hsave;
    cbn [buffer_start_time set_humidity_readings_buffer set_temp_readings_buffer
         temp_readings_buffer humidity_readings_buffer historical_data];
    auto.
  - intros E. now apply app_eq_nil in E as [_ E].
  - intros E. now apply app_eq_nil in E as [_ E].
  - now rewrite Hstart.
Qed.

(* ================================================================= *)
(** ** The sensor loop: live state and buzzer *)

(** What one iteration does with a reading that delivered both values. *)
Lemma sensor_loop_body_success st t h clock now now_save :
  sensor_loop_body (Value (Some t)) (Value (Some h)) clock now now_save st
  = match add_to_buffer now now_save t h
            (final_state (update_sensor_data t h (strftime_full clock) st)) with
    | Returns _ s1 =>
        if py_ge_int t 38 then set_buzzer true "ON" s1
        else set_buzzer false "OFF" s1
    | Raises _ s1 => mark_error s1
    end.
Proof.
  unfold sensor_loop_body, try_except, read_sensor.
  unfold bind at 1, ret at 1. unfold bind at 1, ret at 1.
  unfold bind at 1. unfold update_sensor_data at 1.
  unfold bind at 1, gets at 1, modify at 1. cbn [final_state].
  unfold bind at 1.
  unfold update_sensor_data, bind, gets, modify. cbn [final_state].
  destruct (add_to_buffer now now_save t h _) as [[] s1|e s1].
  - destruct (py_ge_int t 38); reflexivity.
  - reflexivity.
Qed.

(** What one iteration does when the read fails. *)
Lemma sensor_loop_body_failure st t_read h_read clock now now_save :
  read_failed t_read h_read ->
  sensor_loop_body t_read h_read clock now now_save st = mark_error st.
Proof.
  intros Hfail. unfold sensor_loop_body, try_except, read_sensor, bind, ret, raise.
  destruct t_read as [[t|]| |], h_read as [[h|]| |];
    try reflexivity; simpl in Hfail; contradiction.
Qed.

(** C6. A failed read (a missing value or an exception of the driver) only
    sets the error flag: temperature, humidity, time (and everything else)
    stay as they were.  [sensor_data.update] at a later successful read
    replaces temperature, humidity and time and clears the flag; at the end
    of that iteration the three fields hold the new reading, and the flag is
    clear when buffering the reading raised nothing. *)
Theorem mark_error_keeps_reading_update_replaces st :
  (forall t_read h_read clock now now_save,
      read_failed t_read h_read ->
      sensor_loop_body t_read h_read clock now now_save st
      = Returns tt
          (set_sensor_data
             (mkSensor (temperature (sensor_data st)) (humidity (sensor_data st))
                       (buzzer (sensor_data st)) (time (sensor_data st)) true)
             st))
  /\
  (forall t h now_str,
      update_sensor_data t h now_str st
      = Returns tt
          (set_sensor_data
             (mkSensor (Some t) (Some h) (buzzer (sensor_data st))
                       (Some now_str) false)
             st))
  /\
  (forall t h clock now now_save,
      let st' := final_state
                   (sensor_loop_body (Value (Some t)) (Value (Some h))
                                     clock now now_save st) in
      temperature (sensor_data st') = Some t /\
      humidity (sensor_data st') = Some h /\
      time (sensor_data st') = Some (strftime_full clock) /\
      forall s1,
        add_to_buffer now now_save t h
          (final_state (update_sensor_data t h (strftime_full clock) st))
        = Returns tt s1 ->
        error (sensor_data st') = false).
Proof.
  split; [|split].
  - intros * Hfail. now rewrite sensor_loop_body_failure.
  - reflexivity.
  - intros t h clock now now_save st'. subst st'.
    rewrite sensor_loop_body_success.
    pose proof (keeps_live_add_to_buffer now now_save t h
                  (final_state (update_sensor_data t h (strftime_full clock) st)))
      as [Hsd _].
    destruct (add_to_buffer now now_save t h _) as [[] s1|e s1];
      cbn [final_state] in Hsd.
    + destruct (py_ge_int t 38);
        cbn; rewrite Hsd; cbn; repeat split; reflexivity.
    + cbn. rewrite Hsd. cbn. repeat split; try reflexivity.
      intros s1' E. discriminate E.
Qed.

(** C7. For a reading that delivered both values and whose buffering raises
    nothing, the iteration ends with the buzzer on if and only if
    [temperature >= 38]: [buzzer.value] is [True] and the live state says "ON"
    exactly then, and otherwise they are [False] and "OFF".  The comparison
    is inclusive: 38.0 is at the threshold, 37.9 is below it. *)
Theorem buzzer_on_iff_at_least_38 st t h clock now now_save s1 :
  add_to_buffer now now_save t h
    (final_state (update_sensor_data t h (strftime_full clock) st))
  = Returns tt s1 ->
  exists s2,
    sensor_loop_body (Value (Some t)) (Value (Some h)) clock now now_save st
    = Returns tt s2 /\
    (buzzer_value s2 = true <-> py_ge_int t 38 = true) /\
    (buzzer (sensor_data s2) = "ON" <-> py_ge_int t 38 = true) /\
    (buzzer_value s2 = false <-> py_ge_int t 38 = false) /\
    (buzzer (sensor_data s2) = "OFF" <-> py_ge_int t 38 = false) /\
    (forall z, py_ge_int (PyInt z) 38 = (38 <=? z)) /\
    (forall f, py_ge_int (PyFloat f) 38 = (38.0 <=? f)%float) /\
    py_ge_int (PyFloat 38.0) 38 = true /\
    py_ge_int (PyFloat 37.9) 38 = false.
Proof.
  intros Hbuf. rewrite sensor_loop_body_success, Hbuf.
  destruct (py_ge_int t 38) eqn:Hge.
  - eexists. split; [reflexivity|]. cbn.
    repeat split; intros; try reflexivity; try discriminate.
  - eexists. split; [reflexivity|]. cbn.
    repeat split; intros; try reflexivity; try discriminate.
Qed.

(** C7 as stated fails when buffering the reading raises.  The program
    starts on a history file whose "data" has its labels only, which loads
    without error.  The second reading closes the window, the flush raises
    [KeyError] at the missing "temp" sequence, and the iteration ends in the
    [except] branch before the comparison: a reading of 40.0 leaves the
    buzzer off, and a reading of 20.0 leaves it on. *)
Lemma buzzer_unchanged_when_flush_raises :
  (exists st,
      (load_historical_data parse_isoformat ;; sensor_loop warm_then_hot)
        (initial_state labels_only_file) = Returns tt st /\
      temperature (sensor_data st) = Some (PyFloat 40.0) /\
      py_ge_int (PyFloat 40.0) 38 = true /\
      buzzer_value st = false /\
      buzzer (sensor_data st) = "OFF") /\
  (exists st,
      (load_historical_data parse_isoformat ;; sensor_loop hot_then_cool)
        (initial_state labels_only_file) = Returns tt st /\
      temperature (sensor_data st) = Some (PyFloat 20.0) /\
      py_ge_int (PyFloat 20.0) 38 = false /\
      buzzer_value st = true /\
      buzzer (sensor_data st) = "ON").
Proof.
  split; eexists; (split; [vm_compute; reflexivity|]);
    repeat split; reflexivity.
Qed.

(* ================================================================= *)
(** ** Loading and saving the history *)

Lemma isoformat_truthy d : py_truthy (JStr (isoformat d)) = true.
Proof. reflexivity. Qed.

Lemma save_historical_data_returns st :
  save_historical_data st
  = Returns tt
      (set_hist_file
         (Parsed (JObj [("data", historical_data st);
                        ("last_save",
                         match last_historical_save st with
                         | Some d => JStr (isoformat d)
                         | None => JNull
                         end)])) st).
Proof. reflexivity. Qed.

Section Loading.

Variable fromisoformat : string -> option datetime.

Lemma load_absent st : hist_file st = Absent -> load_historical_data fromisoformat st = Returns tt st.
Proof.
  intros Hf. unfold load_historical_data, try_except, bind, gets.
  now rewrite Hf.
Qed.

Lemma load_unparseable st :
  hist_file st = Unparseable ->
  load_historical_data fromisoformat st = Returns tt (set_historical_data empty_history st).
Proof.
  intros Hf. unfold load_historical_data, try_except, bind, gets.
  now rewrite Hf.
Qed.

(** A "last_save" entry that is present and truthy but is not a timestamp
    leaves an empty history; the last save is not assigned. *)
Lemma load_bad_last_save st kv v e :
  hist_file st = Parsed (JObj kv) ->
  dict_get "last_save" kv = Some v ->
  py_truthy v = true ->
  py_fromisoformat fromisoformat v = inl e ->
  load_historical_data fromisoformat st = Returns tt (set_historical_data empty_history st).
Proof.
  intros Hf Hls Htruthy Hbad.
  unfold load_historical_data, try_except.
  unfold bind at 1, gets at 1. rewrite Hf.
  unfold py_get. rewrite Hls.
  destruct (dict_get "data" kv) as [hd|];
    unfold bind, lift, ok, ret, modify, raise; rewrite Htruthy, Hbad;
    reflexivity.
Qed.

(** A file with a history that has a "labels" list and with a "last_save"
    entry that loads. *)
Lemma load_well_formed st kv hd L T H :
  hist_file st = Parsed (JObj kv) ->
  dict_get "data" kv = Some hd ->
  store_view hd = Some (L, T, H) ->
  last_save_loads fromisoformat kv ->
  load_historical_data fromisoformat st
  = Returns tt
      (match dict_get "last_save" kv with
       | Some v =>
           if py_truthy v then
             match py_fromisoformat fromisoformat v with
             | inr d => set_last_historical_save (Some d) (set_historical_data hd st)
             | inl _ => set_historical_data hd st
             end
           else set_historical_data hd st
       | None => set_historical_data hd st
       end).
Proof.
  intros Hf Hdata Hv Hls.
  apply store_view_inv in Hv. destruct Hv as (kvh & -> & Hl & _).
  unfold load_historical_data, try_except.
  unfold bind at 1, gets at 1. rewrite Hf.
  unfold py_get. rewrite Hdata.
  unfold last_save_loads in Hls.
  destruct (dict_get "last_save" kv) as [v|].
  - destruct Hls as [Hfalsy | [d Hd]].
    + unfold bind, lift, ok, ret, modify, gets, py_getitem. rewrite Hfalsy.
      cbn [historical_data set_historical_data]. rewrite Hl. reflexivity.
    + destruct (py_truthy v) eqn:Htruthy.
      * unfold bind, lift, ok, ret, modify, gets, py_getitem.
        rewrite Htruthy, Hd.
        cbn [historical_data set_historical_data set_last_historical_save].
        rewrite Hl. reflexivity.
      * unfold bind, lift, ok, ret, modify, gets, py_getitem. rewrite Htruthy.
        cbn [historical_data set_historical_data]. rewrite Hl. reflexivity.
  - unfold bind, lift, ok, ret, modify, gets, py_getitem. cbn [py_truthy].
    cbn [historical_data set_historical_data]. rewrite Hl. reflexivity.
Qed.

(** [load_historical_data] never raises. *)
Lemma load_never_raises st : exists st', load_historical_data fromisoformat st = Returns tt st'.
Proof.
  unfold load_historical_data, try_except.
  match goal with
  | |- exists st', match ?body st with _ => _ end = _ =>
      destruct (body st) as [[] s'|e s']
  end; eexists; reflexivity.
Qed.

(** C8. At start-up, when the history file is missing, or is not JSON, or
    holds a "last_save" entry that is not a timestamp (a string that
    [fromisoformat] rejects, or a non-string), [load_historical_data]
    returns with the empty history and no last save: the globals are as the
    module initialised them.  It raises in no case at all. *)
Theorem load_failure_gives_empty_history f :
  (f = Absent \/ f = Unparseable \/
   exists kv v e,
     f = Parsed (JObj kv) /\ dict_get "last_save" kv = Some v /\
     py_truthy v = true /\ py_fromisoformat fromisoformat v = inl e) ->
  load_historical_data fromisoformat (initial_state f) = Returns tt (initial_state f) /\
  store_view (historical_data (initial_state f)) = Some ([], [], []) /\
  last_historical_save (initial_state f) = None /\
  forall st, exists st', load_historical_data fromisoformat st = Returns tt st'.
Proof.
  intros Hf. split; [|split; [reflexivity|split; [reflexivity|]]].
  - destruct Hf as [-> | [-> | (kv & v & e & -> & Hls & Htruthy & Hbad)]].
    + now apply load_absent.
    + now rewrite load_unparseable.
    + now rewrite (load_bad_last_save _ kv v e).
  - apply load_never_raises.
Qed.

(** C10. A file whose three sequences are longer than
    [MAX_HISTORICAL_POINTS] is loaded as it is: the history in memory exceeds
    the capacity.  The next added point cuts each sequence to exactly its
    last [MAX_HISTORICAL_POINTS] items, whatever the lengths were. *)
Theorem load_does_not_truncate st kv hd L T H :
  hist_file st = Parsed (JObj kv) ->
  dict_get "data" kv = Some hd ->
  store_view hd = Some (L, T, H) ->
  last_save_loads fromisoformat kv ->
  (MAX_HISTORICAL_POINTS < List.length L)%nat ->
  (MAX_HISTORICAL_POINTS < List.length T)%nat ->
  (MAX_HISTORICAL_POINTS < List.length H)%nat ->
  exists st',
    load_historical_data fromisoformat st = Returns tt st' /\
    historical_data st' = hd /\
    store_view (historical_data st') = Some (L, T, H) /\
    forall lbl t h,
    exists hd'',
      append_point lbl t h st' = Returns tt (set_historical_data hd'' st') /\
      store_view hd''
      = Some (last_n MAX_HISTORICAL_POINTS (L ++ [JStr lbl]),
              last_n MAX_HISTORICAL_POINTS (T ++ [JFloat t]),
              last_n MAX_HISTORICAL_POINTS (H ++ [JFloat h])) /\
      List.length (last_n MAX_HISTORICAL_POINTS (L ++ [JStr lbl]))
      = MAX_HISTORICAL_POINTS /\
      List.length (last_n MAX_HISTORICAL_POINTS (T ++ [JFloat t]))
      = MAX_HISTORICAL_POINTS /\
      List.length (last_n MAX_HISTORICAL_POINTS (H ++ [JFloat h]))
      = MAX_HISTORICAL_POINTS.
Proof.
  intros Hf Hdata Hv Hls HL HT HH.
  eexists. split; [exact (load_well_formed st kv hd L T H Hf Hdata Hv Hls)|].
  assert (Hhd : historical_data
                  (match dict_get "last_save" kv with
                   | Some v =>
                       if py_truthy v then
                         match py_fromisoformat fromisoformat v with
                         | inr d => set_last_historical_save (Some d)
                                      (set_historical_data hd st)
                         | inl _ => set_historical_data hd st
                         end
                       else set_historical_data hd st
                   | None => set_historical_data hd st
                   end) = hd).
  { destruct (dict_get "last_save" kv) as [v|]; [|reflexivity].
    destruct (py_truthy v); [|reflexivity].
    destruct (py_fromisoformat fromisoformat v); reflexivity. }
  split; [exact Hhd|]. split; [now rewrite Hhd|].
  intros lbl t h.
  destruct (append_point_view hd L T H lbl t h Hv) as (hd'' & Hv'' & Happ).
  exists hd''. split; [apply Happ; exact Hhd|].
  unfold appended in Hv''.
  replace (MAX_HISTORICAL_POINTS <? List.length (L ++ [JStr lbl]))%nat
    with true in Hv''
    by (symmetry; apply Nat.ltb_lt; rewrite length_app; lia).
  split; [exact Hv''|].
  rewrite !last_n_length, !length_app. cbn [List.length]. lia.
Qed.

End Loading.

(** *** The concrete parser inverts [isoformat] *)

Lemma digit_value_digit k : 0 <= k < 10 -> digit_value (digit k) = Some k.
Proof.
  intros Hk.
  assert (Hcases : k = 0 \/ k = 1 \/ k = 2 \/ k = 3 \/ k = 4 \/ k = 5
                   \/ k = 6 \/ k = 7 \/ k = 8 \/ k = 9) by lia.
  repeat (destruct Hcases as [-> | Hcases]; [reflexivity|]).
  subst k. reflexivity.
Qed.

Lemma parse_digits_pad2 acc n rest :
  0 <= n < 100 ->
  parse_digits 2 acc (pad2 n ++ rest) = Some (acc * 100 + n, rest).
Proof.
  intros Hn. unfold pad2. cbn [String.append parse_digits].
  rewrite !digit_value_digit by (Z.div_mod_to_equations; lia).
  do 2 f_equal. Z.div_mod_to_equations. lia.
Qed.

Lemma parse_digits_pad4 n rest :
  0 <= n < 10000 -> parse_digits 4 0 (pad4 n ++ rest) = Some (n, rest).
Proof.
  intros Hn. unfold pad4, pad2. cbn [String.append parse_digits].
  rewrite !digit_value_digit by (Z.div_mod_to_equations; lia).
  do 2 f_equal. Z.div_mod_to_equations. lia.
Qed.

Lemma parse_digits_pad6 n :
  0 <= n < 1000000 -> parse_digits 6 0 (pad6 n) = Some (n, "").
Proof.
  intros Hn. unfold pad6, pad2. cbn [String.append parse_digits].
  rewrite !digit_value_digit by (Z.div_mod_to_equations; lia).
  do 2 f_equal. Z.div_mod_to_equations. lia.
Qed.

Lemma parse_fraction_isoformat us :
  0 <= us < 1000000 ->
  parse_fraction (if us =? 0 then "" else "." ++ pad6 us) = Some us.
Proof.
  intros Hus. destruct (us =? 0) eqn:E.
  - apply Z.eqb_eq in E. now subst.
  - cbn [String.append parse_fraction Ascii.eqb Bool.eqb].
    now rewrite parse_digits_pad6.
Qed.

Lemma valid_validb d : valid d -> validb d = true.
Proof.
  unfold valid, validb. intros H.
  repeat (apply andb_true_intro; split);
    first [apply Z.leb_le | apply Z.ltb_lt]; lia.
Qed.

Lemma parse_isoformat_isoformat d :
  valid d -> parse_isoformat (isoformat d) = Some d.
Proof.
  intros Hvalid. pose proof (valid_validb d Hvalid) as Hb.
  destruct d as [y m dd hh mm ss us]. unfold valid in Hvalid.
  cbn [year month day hour minute second microsecond] in Hvalid.
  assert (Hdd : 1 <= dd <= 31).
  { destruct Hvalid as (_ & Hm & Hd & _). split; [lia|].
    unfold days_in_month, days_in_month_table in Hd.
    destruct ((m =? 2) && is_leap y); [lia|].
    assert (Hcases : m = 1 \/ m = 2 \/ m = 3 \/ m = 4 \/ m = 5 \/ m = 6
                     \/ m = 7 \/ m = 8 \/ m = 9 \/ m = 10 \/ m = 11 \/ m = 12)
      by lia.
    repeat (destruct Hcases as [-> | Hcases]; [lia|]). subst m. lia. }
  unfold parse_isoformat, isoformat.
  cbn [year month day hour minute second microsecond].
  rewrite parse_digits_pad4 by lia.
  cbn [String.append expect Ascii.eqb Bool.eqb].
  rewrite parse_digits_pad2 by lia.
  cbn [String.append expect Ascii.eqb Bool.eqb].
  rewrite parse_digits_pad2 by lia.
  cbn [String.append expect Ascii.eqb Bool.eqb].
  rewrite parse_digits_pad2 by lia.
  cbn [String.append expect Ascii.eqb Bool.eqb].
  rewrite parse_digits_pad2 by lia.
  cbn [String.append expect Ascii.eqb Bool.eqb].
  rewrite parse_digits_pad2 by lia.
  rewrite parse_fraction_isoformat by lia.
  cbn [Z.mul Z.add]. now rewrite Hb.
Qed.

(* ================================================================= *)
(** ** Saving then loading *)

Section RoundTrip.

Variable fromisoformat : string -> option datetime.

(** The library contract: [fromisoformat] is the inverse of [isoformat]. *)
Hypothesis fromisoformat_isoformat :
  forall d, valid d -> fromisoformat (isoformat d) = Some d.

(** C4. For a retention store (a history with its three sequences, and a
    last save that is absent or a datetime), saving and then loading gives
    back the same history and the same last save: in the running process
    the load changes nothing, and after a restart the load of the saved
    file rebuilds both from the initial globals. *)
Theorem load_after_save_is_identity st L T H :
  store_view (historical_data st) = Some (L, T, H) ->
  (forall d, last_historical_save st = Some d -> valid d) ->
  exists saved,
    save_historical_data st = Returns tt saved /\
    load_historical_data fromisoformat saved = Returns tt saved /\
    historical_data saved = historical_data st /\
    last_historical_save saved = last_historical_save st /\
    exists restarted,
      load_historical_data fromisoformat (initial_state (hist_file saved))
      = Returns tt restarted /\
      historical_data restarted = historical_data st /\
      last_historical_save restarted = last_historical_save st.
Proof.
  intros Hv Hvalid.
  destruct st as [sd bv hd last temps hums start f].
  cbn [historical_data last_historical_save] in *.
  eexists. split; [apply save_historical_data_returns|].
  cbn [historical_data last_historical_save set_hist_file sensor_data
       buzzer_value temp_readings_buffer humidity_readings_buffer
       buffer_start_time hist_file].
  set (v := match last with Some d => JStr (isoformat d) | None => JNull end).
  assert (Hloads : last_save_loads fromisoformat [("data", hd); ("last_save", v)]).
  { unfold last_save_loads. cbn [dict_get String.eqb Ascii.eqb Bool.eqb].
    unfold v. destruct last as [d|]; [right|left; reflexivity].
    exists d. cbn [py_fromisoformat].
    now rewrite fromisoformat_isoformat by now apply Hvalid. }
  assert (Hlast : match last with
                  | Some d => py_truthy v = true
                              /\ py_fromisoformat fromisoformat v = inr d
                  | None => py_truthy v = false
                  end).
  { unfold v. destruct last as [d|]; [|reflexivity].
    split; [reflexivity|]. cbn [py_fromisoformat].
    now rewrite fromisoformat_isoformat by now apply Hvalid. }
  split; [|split; [reflexivity|split; [reflexivity|]]].
  - match goal with
    | |- load_historical_data _ ?s = _ =>
        rewrite (load_well_formed fromisoformat s [("data", hd); ("last_save", v)]
                   hd L T H eq_refl eq_refl Hv Hloads)
    end.
    cbn [dict_get String.eqb Ascii.eqb Bool.eqb].
    destruct last as [d|].
    + destruct Hlast as [-> ->]. reflexivity.
    + rewrite Hlast. reflexivity.
  - eexists. split.
    + match goal with
      | |- load_historical_data _ ?s = _ =>
          apply (load_well_formed fromisoformat s [("data", hd); ("last_save", v)]
                   hd L T H eq_refl eq_refl Hv Hloads)
      end.
    + cbn [dict_get String.eqb Ascii.eqb Bool.eqb].
      destruct last as [d|].
      * destruct Hlast as [-> ->]. split; reflexivity.
      * rewrite Hlast. split; reflexivity.
Qed.

End RoundTrip.

(* ================================================================= *)
(** ** Cleaning old data *)

Section Cleaning.

Variable strptime_label : Z -> json -> string -> option datetime.

(** When no label parses to a time at or after the cutoff, the loop of
    lines 147-162 leaves [keep_from] at 0. *)
Lemma find_keep_from_no_recent year c labels :
  (forall label t, In label labels ->
                   point_time strptime_label year label = Some t ->
                   geb t c = false) ->
  forall i, find_keep_from strptime_label year c i labels = 0%nat.
Proof.
  induction labels as [|label rest IH]; intros Hold i; [reflexivity|].
  cbn [find_keep_from].
  destruct (point_time strptime_label year label) as [t|] eqn:Ept.
  - rewrite (Hold label t (or_introl eq_refl) Ept).
    apply IH. intros l t' Hin. apply Hold. now right.
  - apply IH. intros l t' Hin. apply Hold. now right.
Qed.

(** C5. On a retention store in which no label parses (in the current
    year, in either format) to a time at or after the cutoff of 24 hours
    before now - in particular when every label is older - cleaning returns
    with all globals unchanged: the three sequences are as they were and the
    history file is not written. *)
Theorem clean_old_data_without_recent_label st now c L T H :
  store_view (historical_data st) = Some (L, T, H) ->
  cutoff now = inr c ->
  (forall label t, In label L ->
                   point_time strptime_label (year now) label = Some t ->
                   geb t c = false) ->
  clean_old_data strptime_label now st = Returns tt st.
Proof.
  intros Hv Hcut Hold.
  apply store_view_inv in Hv. destruct Hv as (kv & Hhd & Hl & _).
  unfold clean_old_data.
  unfold bind at 1, gets at 1. rewrite Hhd.
  unfold bind at 1, lift at 1, py_getitem. rewrite Hl. unfold ok, ret at 1.
  destruct L as [|l0 L']; [reflexivity|].
  cbn [py_truthy negb].
  unfold bind at 1, lift at 1. rewrite Hcut. unfold ret at 1.
  unfold bind at 1, lift at 1, py_iter, ok, ret at 1.
  rewrite (find_keep_from_no_recent _ _ _ Hold). reflexivity.
Qed.

(** When the loop stops at an index [k > 0], the first [k] items of each
    sequence are dropped and the history is saved. *)
Lemma clean_old_data_drops_prefix st now c L T H :
  store_view (historical_data st) = Some (L, T, H) ->
  cutoff now = inr c ->
  (0 < find_keep_from strptime_label (year now) c 0 L)%nat ->
  exists hd',
    store_view hd'
    = Some (skipn (find_keep_from strptime_label (year now) c 0 L) L,
            skipn (find_keep_from strptime_label (year now) c 0 L) T,
            skipn (find_keep_from strptime_label (year now) c 0 L) H) /\
    clean_old_data strptime_label now st
    = save_historical_data (set_historical_data hd' st).
Proof.
  intros Hv Hcut Hk.
  apply store_view_inv in Hv. destruct Hv as (kv & Hhd & Hl & Ht & Hh).
  assert (HL : L <> []) by (intros ->; simpl in Hk; lia).
  set (k := find_keep_from strptime_label (year now) c 0 L) in *.
  exists (JObj (dict_set "hum" (JList (skipn k H))
                  (dict_set "temp" (JList (skipn k T))
                     (dict_set "labels" (JList (skipn k L)) kv)))).
  split; [apply store_view_obj; now rewrite !dict_get_set|].
  unfold clean_old_data.
  unfold bind at 1, gets at 1. rewrite Hhd.
  unfold bind at 1, lift at 1, py_getitem. rewrite Hl. unfold ok, ret at 1.
  replace (py_truthy (JList L)) with true
    by (destruct L; [congruence|reflexivity]).
  cbn [negb].
  unfold bind at 1, lift at 1. rewrite Hcut. unfold ret at 1.
  unfold bind at 1, lift at 1, py_iter, ok, ret at 1.
  fold k. apply Nat.ltb_lt in Hk. rewrite Hk.
  erewrite bind_returns by (eapply history_drop_before_obj; eauto).
  cbv beta.
  erewrite bind_returns
    by (eapply history_drop_before_obj; [cbn; reflexivity|];
        rewrite dict_get_set; simpl; exact Ht).
  cbv beta.
  erewrite bind_returns
    by (eapply history_drop_before_obj; [cbn; reflexivity|];
        rewrite !dict_get_set; simpl; exact Hh).
  reflexivity.
Qed.

End Cleaning.

(* ================================================================= *)
(** ** Concrete instances *)

(** A point added to a full history of 288 points. *)
Lemma append_point_keeps_capacity_witness :
  exists hd' L' T' H',
    append_point "Jan 05 03:17 PM" 26 51
                 (set_historical_data full_history (initial_state Absent))
    = Returns tt (set_historical_data hd' (initial_state Absent)) /\
    store_view hd' = Some (L', T', H') /\
    length_invariant L' T' H' /\
    L' = map (fun n => JStr (pad4 (Z.of_nat n))) (seq 1 287)
         ++ [JStr "Jan 05 03:17 PM"] /\
    T' = map (fun n => JInt (Z.of_nat n)) (seq 1 287) ++ [JFloat 26] /\
    H' = map (fun n => JInt (Z.of_nat (n + 40))) (seq 1 287) ++ [JFloat 51].
Proof.
  destruct (append_point_keeps_capacity
              (set_historical_data full_history (initial_state Absent))
              (map (fun n => JStr (pad4 (Z.of_nat n))) (seq 0 288))
              (map (fun n => JInt (Z.of_nat n)) (seq 0 288))
              (map (fun n => JInt (Z.of_nat (n + 40))) (seq 0 288))
              "Jan 05 03:17 PM" 26%float 51%float)
    as (hd' & L' & T' & H' & Happ & Hv & Hinv & _ & _ & _ & Hfull).
  - reflexivity.
  - unfold length_invariant. rewrite !length_map, !length_seq.
    unfold MAX_HISTORICAL_POINTS. lia.
  - exists hd', L', T', H'.
    destruct Hfull as (HL & HT & HH);
      [now rewrite length_map, length_seq|].
    repeat split; try assumption; apply Hinv.
Defined.

(** The flush of the scenario on an empty history. *)
Lemma flush_scenario_witness :
  exists hd',
    save_averaged_data window_close
      (window_state [PyFloat 25.0; PyFloat 26.0; PyFloat 27.0] three_humidities)
    = Returns true
        (flushed_state
           (window_state [PyFloat 25.0; PyFloat 26.0; PyFloat 27.0]
                         three_humidities)
           hd' window_close) /\
    store_view hd'
    = Some ([JStr "Jan 05 03:17 PM"], [JFloat 26.0], [JFloat 51.0]).
Proof.
  destruct (flush_scenario
              (window_state [PyFloat 25.0; PyFloat 26.0; PyFloat 27.0]
                            three_humidities)
              window_close [] [] [] eq_refl eq_refl eq_refl eq_refl)
    as (hd' & Hsave & Hv & _).
  exists hd'. split; [exact Hsave | exact Hv].
Defined.

(** Integer readings in two read orders: the same stored point. *)
Lemma flush_stores_window_averages_witness :
  exists hd',
    store_view hd'
    = Some ([JStr "Jan 05 03:17 PM"], [JFloat 26.0], [JFloat 51.0]) /\
    save_averaged_data window_close
      (window_state (map PyInt [25; 26; 27]) (map PyInt [50; 52; 51]))
    = Returns true (flushed_state (window_state [] []) hd' window_close) /\
    save_averaged_data window_close
      (window_state (map PyInt [27; 25; 26]) (map PyInt [51; 50; 52]))
    = Returns true (flushed_state (window_state [] []) hd' window_close).
Proof.
  destruct (flush_stores_window_averages
              (window_state [] []) window_close [] [] []
              (map PyInt [25; 26; 27]) (map PyInt [50; 52; 51])
              26.0%float 51.0%float (mkDatetime 2024 1 5 15 17 30 0))
    as (hd' & Hv & Hsave & Hperm).
  - reflexivity.
  - reflexivity.
  - discriminate.
  - discriminate.
  - vm_compute. reflexivity.
  - vm_compute. reflexivity.
  - exists hd'. split; [exact Hv|]. split; [exact Hsave|].
    apply (Hperm [25; 26; 27] [50; 52; 51] [27; 25; 26] [51; 50; 52]
                 eq_refl eq_refl).
    + apply Permutation_sym. exact (Permutation_cons_append [25; 26] 27).
    + apply Permutation_sym. exact (Permutation_cons_append [50; 52] 51).
Defined.

(** A full history saved at 2024-01-05 15:20:00 and loaded again, with the
    parser of [isoformat] strings. *)
Lemma load_after_save_is_identity_witness :
  exists saved,
    save_historical_data saved_store = Returns tt saved /\
    load_historical_data parse_isoformat saved = Returns tt saved /\
    historical_data saved = full_history /\
    last_historical_save saved = Some window_close.
Proof.
  destruct (load_after_save_is_identity
              parse_isoformat parse_isoformat_isoformat saved_store
              (map (fun n => JStr (pad4 (Z.of_nat n))) (seq 0 288))
              (map (fun n => JInt (Z.of_nat n)) (seq 0 288))
              (map (fun n => JInt (Z.of_nat (n + 40))) (seq 0 288)))
    as (saved & Hsave & Hload & Hhd & Hlast & _).
  - reflexivity.
  - intros d E. injection E as <-. unfold valid. cbn. lia.
  - exists saved. auto.
Defined.

(** Cleaning at 2024-01-05 15:20:00 a history whose labels are all older
    than 2024-01-04 15:20:00 or do not parse. *)
Lemma clean_old_data_without_recent_label_witness :
  clean_old_data parse_label window_close stale_store = Returns tt stale_store.
Proof.
  apply (clean_old_data_without_recent_label
           parse_label stale_store window_close
           (mkDatetime 2024 1 4 15 20 0 0) stale_labels
           [JFloat 20.0; JFloat 21.0; JFloat 22.0; JFloat 23.0]
           [JFloat 50.0; JFloat 51.0; JFloat 52.0; JFloat 53.0]).
  - reflexivity.
  - reflexivity.
  - intros label t Hin Hpt. unfold stale_labels in Hin.
    repeat (destruct Hin as [<- | Hin];
            [vm_compute in Hpt;
             first [discriminate Hpt | injection Hpt as <-; reflexivity]|]).
    destruct Hin.
Defined.

(** A reading, a failed read, and a reading again. *)
Lemma mark_error_keeps_reading_update_replaces_witness :
  sensor_loop_body ReadRuntimeError (Value None)
                   window_start window_start window_start after_first_reading
  = Returns tt after_failed_read /\
  temperature (sensor_data after_failed_read) = Some (PyFloat 25.0) /\
  error (sensor_data after_failed_read) = true /\
  error (sensor_data
           (final_state
              (sensor_loop_body (Value (Some (PyFloat 26.0)))
                                (Value (Some (PyInt 52)))
                                window_close window_close window_close
                                after_failed_read)))
  = false.
Proof.
  destruct (mark_error_keeps_reading_update_replaces after_first_reading)
    as (Hfail & _ & _).
  destruct (mark_error_keeps_reading_update_replaces after_failed_read)
    as (_ & _ & Hok).
  split; [|split; [reflexivity|split; [reflexivity|]]].
  - apply Hfail. exact I.
  - destruct (Hok (PyFloat 26.0) (PyInt 52) window_close window_close
                  window_close) as (_ & _ & _ & Herr).
    eapply Herr. vm_compute. reflexivity.
Defined.

(** The boundary: 38.0 switches the buzzer on, 37.9 switches it off. *)
Lemma buzzer_on_iff_at_least_38_witness :
  (exists s2,
      sensor_loop_body (Value (Some (PyFloat 38.0))) (Value (Some (PyInt 50)))
                       window_start window_start window_start
                       (initial_state Absent)
      = Returns tt s2 /\
      buzzer_value s2 = true /\ buzzer (sensor_data s2) = "ON") /\
  (exists s2,
      sensor_loop_body (Value (Some (PyFloat 37.9))) (Value (Some (PyInt 50)))
                       window_start window_start window_start
                       (initial_state Absent)
      = Returns tt s2 /\
      buzzer_value s2 = false /\ buzzer (sensor_data s2) = "OFF").
Proof.
  split.
  - edestruct (buzzer_on_iff_at_least_38
                 (initial_state Absent) (PyFloat 38.0) (PyInt 50)
                 window_start window_start window_start)
      as (s2 & Hrun & Hon & Hname & _).
    + vm_compute. reflexivity.
    + exists s2. split; [exact Hrun|].
      split; [apply Hon | apply Hname]; reflexivity.
  - edestruct (buzzer_on_iff_at_least_38
                 (initial_state Absent) (PyFloat 37.9) (PyInt 50)
                 window_start window_start window_start)
      as (s2 & Hrun & _ & _ & Hoff & Hname & _).
    + vm_compute. reflexivity.
    + exists s2. split; [exact Hrun|].
      split; [apply Hoff | apply Hname]; reflexivity.
Defined.

(** Start-up without a file, with a file that is not JSON, and with a file
    whose last save is "yesterday". *)
Lemma load_failure_gives_empty_history_witness :
  load_historical_data parse_isoformat (initial_state Absent)
  = Returns tt (initial_state Absent) /\
  load_historical_data parse_isoformat (initial_state Unparseable)
  = Returns tt (initial_state Unparseable) /\
  load_historical_data parse_isoformat
                       (initial_state (Parsed (JObj bad_last_save_file)))
  = Returns tt (initial_state (Parsed (JObj bad_last_save_file))).
Proof.
  split; [|split].
  - apply (load_failure_gives_empty_history parse_isoformat Absent).
    left. reflexivity.
  - apply (load_failure_gives_empty_history parse_isoformat Unparseable).
    right. left. reflexivity.
  - apply (load_failure_gives_empty_history
             parse_isoformat (Parsed (JObj bad_last_save_file))).
    right. right.
    exists bad_last_save_file, (JStr "yesterday"), ValueError.
    repeat split; reflexivity.
Defined.

(** A file with 300 points: 300 points in memory after the load, 288 after
    the next point. *)
Lemma load_does_not_truncate_witness :
  exists st',
    load_historical_data parse_isoformat
                         (initial_state (Parsed (JObj overlong_file)))
    = Returns tt st' /\
    store_view (historical_data st')
    = Some (overlong_labels, overlong_temps, overlong_hums) /\
    List.length overlong_labels = 300%nat /\
    exists hd'',
      append_point "Jan 05 03:17 PM" 26.0 51.0 st'
      = Returns tt (set_historical_data hd'' st') /\
      store_view hd''
      = Some (last_n 288 (overlong_labels ++ [JStr "Jan 05 03:17 PM"]),
              last_n 288 (overlong_temps ++ [JFloat 26.0]),
              last_n 288 (overlong_hums ++ [JFloat 51.0])).
Proof.
  destruct (load_does_not_truncate
              parse_isoformat (initial_state (Parsed (JObj overlong_file)))
              overlong_file
              (JObj [("labels", JList overlong_labels);
                     ("temp", JList overlong_temps);
                     ("hum", JList overlong_hums)])
              overlong_labels overlong_temps overlong_hums)
    as (st' & Hload & _ & Hhd & Happ).
  - reflexivity.
  - reflexivity.
  - reflexivity.
  - right. exists window_close. vm_compute. reflexivity.
  - unfold overlong_labels, MAX_HISTORICAL_POINTS.
    rewrite length_map, length_seq. lia.
  - unfold overlong_temps, MAX_HISTORICAL_POINTS.
    rewrite length_map, length_seq. lia.
  - unfold overlong_hums, MAX_HISTORICAL_POINTS.
    rewrite length_map, length_seq. lia.
  - exists st'. split; [exact Hload|]. split; [exact Hhd|].
    split; [unfold overlong_labels; now rewrite length_map, length_seq|].
    destruct (Happ "Jan 05 03:17 PM" 26.0%float 51.0%float)
      as (hd'' & Hrun & Hv & _).
    exists hd''. split; [exact Hrun | exact Hv].
Defined.

(** The scenario of the specification from the first reading to the flush:
    three readings at 15:15:00, 15:17:00 and 15:20:00 on a fresh start. *)
Example scenario_from_first_reading :
  (add_to_buffer window_start window_start (PyFloat 25.0) (PyInt 50) ;;
   add_to_buffer (mkDatetime 2024 1 5 15 17 0 0) window_start
                 (PyFloat 26.0) (PyInt 52) ;;
   add_to_buffer window_close window_close (PyFloat 27.0) (PyInt 51))
    (initial_state Absent)
  = Returns tt
      (flushed_state (initial_state Absent)
         (JObj [("labels", JList [JStr "Jan 05 03:17 PM"]);
                ("temp", JList [JFloat 26.0]);
                ("hum", JList [JFloat 51.0])])
         window_close).
Proof. vm_compute. reflexivity. Qed.

(** The window test agrees with the float [total_seconds] at the boundary:
    299.999999 s is below 300, 300 s is not. *)
Example total_seconds_boundary :
  py_int_truediv 299999999 1000000 = inr 299.999999%float /\
  (299.999999 <? 300)%float = true /\
  total_seconds_ge 299999999 HISTORICAL_INTERVAL = false /\
  py_int_truediv 300000000 1000000 = inr 300%float /\
  total_seconds_ge 300000000 HISTORICAL_INTERVAL = true.
Proof. repeat split; vm_compute; reflexivity. Qed.

(* ================================================================= *)
(** ** Frames: what a statement leaves alone *)

Lemma keeps_ret {X A} (f : state -> X) (a : A) : keeps f (ret a).
Proof. intros s. reflexivity. Qed.

Lemma keeps_raise {X A} (f : state -> X) e : keeps f (@raise A e).
Proof. intros s. reflexivity. Qed.

Lemma keeps_gets {X A} (f : state -> X) (g : state -> A) : keeps f (gets g).
Proof. intros s. reflexivity. Qed.

Lemma keeps_lift {X A} (f : state -> X) (r : result A) : keeps f (lift r).
Proof. destruct r; intros s; reflexivity. Qed.

Lemma keeps_modify {X} (f : state -> X) g :
  (forall s, f (g s) = f s) -> keeps f (modify g).
Proof. intros Hg s. apply Hg. Qed.

Lemma keeps_bind {X A B} (f : state -> X) (c : M A) (k : A -> M B) :
  keeps f c -> (forall a, keeps f (k a)) -> keeps f (bind c k).
Proof.
  intros Hc Hk s. unfold bind. specialize (Hc s).
  destruct (c s) as [a s'|e s']; cbn [final_state] in *.
  - now rewrite Hk.
  - exact Hc.
Qed.

Lemma keeps_try_except {X A} (f : state -> X) (c : M A) h :
  keeps f c -> (forall e, keeps f (h e)) -> keeps f (try_except c h).
Proof.
  intros Hc Hh s. unfold try_except. specialize (Hc s).
  destruct (c s) as [a s'|e s']; cbn [final_state] in *.
  - exact Hc.
  - now rewrite Hh.
Qed.

Ltac keeps_step :=
  first
    [ apply keeps_ret | apply keeps_raise | apply keeps_gets | apply keeps_lift
    | apply keeps_modify; intros; reflexivity
    | apply keeps_bind; [|intros ?]
    | apply keeps_try_except; [|intros ?]
    | match goal with
      | |- keeps _ (match ?x with _ => _ end) => destruct x
      end ].

(** Adding a point touches nothing but the history, however it ends. *)
Lemma append_point_frame lbl t h : keeps frame_of_history (append_point lbl t h).
Proof.
  unfold append_point, history_append, history_keep_last.
  repeat keeps_step.
Qed.

(** The flush, step by step. *)
Lemma save_averaged_data_unfold now st :
  save_averaged_data now st
  = match temp_readings_buffer st, humidity_readings_buffer st with
    | [], _ | _, [] => Returns false st
    | temps, hums =>
        match py_sum temps with
        | inl e => Raises e st
        | inr sum_t =>
        match py_truediv_len sum_t (List.length temps) with
        | inl e => Raises e st
        | inr avg_t =>
        match py_sum hums with
        | inl e => Raises e st
        | inr sum_h =>
        match py_truediv_len sum_h (List.length hums) with
        | inl e => Raises e st
        | inr avg_h =>
        match middle_of_period (buffer_start_time st) with
        | inl e => Raises e st
        | inr mid =>
        match append_point (strftime_label mid) (py_round1 avg_t)
                           (py_round1 avg_h) st with
        | Raises e s1 => Raises e s1
        | Returns _ s1 =>
            Returns true
              (set_buffer_start_time None
                 (with_buffers [] []
                    (final_state
                       (save_historical_data
                          (set_last_historical_save (Some now) s1)))))
        end end end end end end
    end.
Proof.
  unfold save_averaged_data. unfold bind at 1, gets at 1.
  unfold bind at 1, gets at 1.
  destruct (temp_readings_buffer st) as [|t0 ts]; [reflexivity|].
  destruct (humidity_readings_buffer st) as [|h0 hs]; [reflexivity|].
  unfold bind at 1, lift at 1.
  destruct (py_sum (t0 :: ts)) as [e|sum_t]; [reflexivity|].
  unfold ret at 1. unfold bind at 1, lift at 1.
  destruct (py_truediv_len sum_t _) as [e|avg_t]; [reflexivity|].
  unfold ret at 1. unfold bind at 1, lift at 1.
  destruct (py_sum (h0 :: hs)) as [e|sum_h]; [reflexivity|].
  unfold ret at 1. unfold bind at 1, lift at 1.
  destruct (py_truediv_len sum_h _) as [e|avg_h]; [reflexivity|].
  unfold ret at 1. unfold bind at 1, gets at 1.
  unfold bind at 1, lift at 1.
  destruct (middle_of_period (buffer_start_time st)) as [e|mid];
    [reflexivity|].
  unfold ret at 1. unfold bind at 1.
  destruct (append_point _ _ _ st) as [[] s1|e s1]; reflexivity.
Qed.

(** The ways a flush can end: nothing to flush; an exception, with nothing
    but the history touched; or the whole flush. *)
Lemma save_averaged_data_outcomes now st :
  (save_averaged_data now st = Returns false st
   /\ (temp_readings_buffer st = [] \/ humidity_readings_buffer st = []))
  \/ (temp_readings_buffer st <> [] /\ humidity_readings_buffer st <> [] /\
      ((exists e s', save_averaged_data now st = Raises e s'
                     /\ frame_of_history s' = frame_of_history st)
       \/ exists hd, save_averaged_data now st
                     = Returns true (flushed_state st hd now))).
Proof.
  rewrite save_averaged_data_unfold.
  destruct (temp_readings_buffer st) as [|t0 ts] eqn:Ets; [left; auto|].
  destruct (humidity_readings_buffer st) as [|h0 hs] eqn:Ehs; [left; auto|].
  right. split; [discriminate|]. split; [discriminate|]. cbv beta iota zeta.
  destruct (py_sum (t0 :: ts)) as [e|sum_t]; [left; now exists e, st|].
  destruct (py_truediv_len sum_t _) as [e|avg_t]; [left; now exists e, st|].
  destruct (py_sum (h0 :: hs)) as [e|sum_h]; [left; now exists e, st|].
  destruct (py_truediv_len sum_h _) as [e|avg_h]; [left; now exists e, st|].
  destruct (middle_of_period (buffer_start_time st)) as [e|mid];
    [left; now exists e, st|].
  pose proof (append_point_frame (strftime_label mid) (py_round1 avg_t)
                (py_round1 avg_h) st) as Hframe.
  destruct (append_point _ _ _ st) as [[] s1|e s1]; cbn [final_state] in Hframe.
  - right. exists (historical_data s1).
    unfold frame_of_history in Hframe. injection Hframe as Hsd Hbv _ _ _ _ _.
    unfold flushed_state. rewrite <- Hsd, <- Hbv. reflexivity.
  - left. exists e, s1. split; [reflexivity|exact Hframe].
Qed.

(** On a well-formed history an exception of the flush leaves every global
    as it was, and the whole flush adds one point. *)
Lemma save_averaged_data_well_formed now st L T H :
  store_view (historical_data st) = Some (L, T, H) ->
  save_averaged_data now st = Returns false st
  \/ (exists e, save_averaged_data now st = Raises e st)
  \/ exists hd' lbl avg_t avg_h,
       save_averaged_data now st = Returns true (flushed_state st hd' now)
       /\ store_view hd' = Some (appended L T H lbl avg_t avg_h).
Proof.
  intros Hv. rewrite save_averaged_data_unfold.
  destruct (temp_readings_buffer st) as [|t0 ts] eqn:Ets; [left; auto|].
  destruct (humidity_readings_buffer st) as [|h0 hs] eqn:Ehs; [left; auto|].
  right. cbv beta iota zeta.
  destruct (py_sum (t0 :: ts)) as [e|sum_t]; [left; now exists e|].
  destruct (py_truediv_len sum_t _) as [e|avg_t]; [left; now exists e|].
  destruct (py_sum (h0 :: hs)) as [e|sum_h]; [left; now exists e|].
  destruct (py_truediv_len sum_h _) as [e|avg_h]; [left; now exists e|].
  destruct (middle_of_period (buffer_start_time st)) as [e|mid];
    [left; now exists e|].
  right.
  destruct (append_point_view _ L T H (strftime_label mid) (py_round1 avg_t)
              (py_round1 avg_h) Hv) as (hd' & Hv' & Happ).
  exists hd', (strftime_label mid), (py_round1 avg_t), (py_round1 avg_h).
  split; [|exact Hv'].
  rewrite (Happ st eq_refl). reflexivity.
Qed.

(** [add_to_buffer] first buffers the reading, opening a window if none is
    open, and then flushes if the window is 300 s old. *)
Lemma add_to_buffer_unfold now now_save t h st :
  add_to_buffer now now_save t h st
  = let t0 := match buffer_start_time st with Some t0 => t0 | None => now end in
    let buffered :=
      set_buffer_start_time (Some t0)
        (with_buffers (temp_readings_buffer st ++ [t])
                      (humidity_readings_buffer st ++ [h]) st) in
    if total_seconds_ge (sub_us now t0) HISTORICAL_INTERVAL
    then (_ <- save_averaged_data now_save ;; ret tt) buffered
    else Returns tt buffered.
Proof.
  destruct st as [sd bv hd last temps hums start f].
  destruct start as [t0|];
    unfold add_to_buffer, bind, gets, modify, ret; cbv zeta;
    cbn [buffer_start_time temp_readings_buffer humidity_readings_buffer
         set_buffer_start_time set_temp_readings_buffer
         set_humidity_readings_buffer with_buffers sensor_data buzzer_value
         historical_data last_historical_save hist_file];
    destruct (total_seconds_ge _ _); reflexivity.
Qed.

(* ================================================================= *)
(** ** The averaging buffer *)

(** A flush with an empty temperature buffer or an empty humidity
    buffer returns [False] and changes no global: no point is added, the
    buffers and the window start stay, nothing is saved. *)
Theorem flush_of_empty_buffer_changes_nothing now st :
  temp_readings_buffer st = [] \/ humidity_readings_buffer st = [] ->
  save_averaged_data now st = Returns false st.
Proof.
  intros Hempty. rewrite save_averaged_data_unfold.
  destruct Hempty as [-> | ->]; [reflexivity|].
  destruct (temp_readings_buffer st); reflexivity.
Qed.

Lemma buffered_is_paired now t h st :
  buffers_paired st ->
  buffers_paired
    (set_buffer_start_time
       (Some match buffer_start_time st with Some t0 => t0 | None => now end)
       (with_buffers (temp_readings_buffer st ++ [t])
                     (humidity_readings_buffer st ++ [h]) st)).
Proof.
  intros [Hlen _]. split.
  - cbn. rewrite !length_app. cbn [List.length]. now rewrite Hlen.
  - cbn. discriminate.
Qed.

(** X1. [add_to_buffer] keeps the two buffers paired, however it ends: they
    have the same length, and they are empty whenever no window is open.
    This holds also when the flush raises half-way. *)
Theorem add_to_buffer_keeps_buffers_paired now now_save t h st :
  buffers_paired st ->
  buffers_paired (final_state (add_to_buffer now now_save t h st)).
Proof.
  intros Hpaired. rewrite add_to_buffer_unfold. cbv zeta.
  pose proof (buffered_is_paired now t h st Hpaired) as Hb.
  set (buffered := set_buffer_start_time _ _) in *.
  destruct (total_seconds_ge _ _); [|exact Hb].
  unfold bind.
  destruct (save_averaged_data_outcomes now_save buffered)
    as [[-> _] | (_ & _ & [(e & s' & -> & Hframe) | (hd & ->)])];
    cbn [final_state ret].
  - exact Hb.
  - unfold frame_of_history in Hframe.
    injection Hframe as _ _ _ Htemps Hhums Hstart _.
    unfold buffers_paired. rewrite Htemps, Hhums, Hstart. exact Hb.
  - split; [reflexivity|]. intros _. reflexivity.
Qed.

(** X2. When [add_to_buffer] returns, either the window was flushed (both
    buffers empty, no window open), or the reading is buffered in a window
    that is less than [HISTORICAL_INTERVAL] seconds old at this reading. *)
Theorem add_to_buffer_leaves_young_window now now_save t h st st' :
  add_to_buffer now now_save t h st = Returns tt st' ->
  (buffer_start_time st' = None /\ temp_readings_buffer st' = []
   /\ humidity_readings_buffer st' = [])
  \/ exists t0,
      buffer_start_time st' = Some t0 /\
      sub_us now t0 < HISTORICAL_INTERVAL * US_PER_SECOND /\
      temp_readings_buffer st' = temp_readings_buffer st ++ [t] /\
      humidity_readings_buffer st' = humidity_readings_buffer st ++ [h].
Proof.
  rewrite add_to_buffer_unfold. cbv zeta.
  set (t0 := match buffer_start_time st with Some t0 => t0 | None => now end).
  set (buffered := set_buffer_start_time _ _).
  destruct (total_seconds_ge (sub_us now t0) HISTORICAL_INTERVAL) eqn:Hage.
  - intros Hrun. left. unfold bind in Hrun.
    destruct (save_averaged_data_outcomes now_save buffered)
      as [[_ Hempty] | (_ & _ & [(e & s' & Hsave & _) | (hd & Hsave)])].
    + exfalso. cbn in Hempty.
      destruct Hempty as [E | E]; now apply app_eq_nil in E as [_ E].
    + rewrite Hsave in Hrun. discriminate.
    + rewrite Hsave in Hrun. injection Hrun as <-. auto.
  - intros Hrun. injection Hrun as <-. right. exists t0.
    split; [reflexivity|]. split; [|split; reflexivity].
    unfold total_seconds_ge in Hage. apply Z.leb_gt in Hage. exact Hage.
Qed.

(* ================================================================= *)
(** ** The sensor loop as a whole *)

Lemma sensor_loop_body_returns t_read h_read clock now now_save st :
  exists st',
    sensor_loop_body t_read h_read clock now now_save st = Returns tt st'.
Proof.
  unfold sensor_loop_body, try_except.
  match goal with
  | |- exists st', match ?body st with _ => _ end = _ =>
      destruct (body st) as [[] s'|e s']
  end; eexists; reflexivity.
Qed.

(** X3. The sensor loop never raises: whatever the sensor reads deliver and
    whatever state the globals are in, every iteration returns, so the loop
    runs until it is stopped. *)
Theorem sensor_loop_never_raises ticks st :
  exists st', sensor_loop ticks st = Returns tt st'.
Proof.
  revert st. induction ticks as [|k rest IH]; intros st.
  - now exists st.
  - cbn [sensor_loop].
    destruct (sensor_loop_body_returns (tick_temperature k) (tick_humidity k)
                (tick_clock k) (tick_now k) (tick_now_save k) st) as [s1 Hs1].
    rewrite (bind_returns _ _ _ _ _ Hs1). apply IH.
Qed.

(** A property that every iteration keeps is kept by the loop. *)
Lemma sensor_loop_invariant (P : state -> Prop) :
  (forall t_read h_read clock now now_save s,
      P s -> P (final_state
                  (sensor_loop_body t_read h_read clock now now_save s))) ->
  forall ticks s, P s -> P (final_state (sensor_loop ticks s)).
Proof.
  intros Hbody ticks. induction ticks as [|k rest IH]; intros s Hs.
  - exact Hs.
  - cbn [sensor_loop]. unfold bind.
    specialize (Hbody (tick_temperature k) (tick_humidity k) (tick_clock k)
                      (tick_now k) (tick_now_save k) s Hs).
    destruct (sensor_loop_body _ _ _ _ _ s) as [[] s1|e s1];
      cbn [final_state] in Hbody.
    + now apply IH.
    + exact Hbody.
Qed.

(** What an iteration ends with, whatever the reads deliver. *)
Lemma sensor_loop_body_cases t_read h_read clock now now_save st :
  sensor_loop_body t_read h_read clock now now_save st = mark_error st
  \/ exists t h,
      sensor_loop_body t_read h_read clock now now_save st
      = match add_to_buffer now now_save t h
                (final_state (update_sensor_data t h (strftime_full clock) st)) with
        | Returns _ s1 =>
            if py_ge_int t 38 then set_buzzer true "ON" s1
            else set_buzzer false "OFF" s1
        | Raises _ s1 => mark_error s1
        end.
Proof.
  destruct t_read as [[t|]| |], h_read as [[h|]| |];
    try (left; apply sensor_loop_body_failure; exact I).
  right. exists t, h. apply sensor_loop_body_success.
Qed.

Lemma appended_keeps_invariant L T H lbl t h :
  length_invariant L T H ->
  length_invariant (fst (fst (appended L T H lbl t h)))
                   (snd (fst (appended L T H lbl t h)))
                   (snd (appended L T H lbl t h)).
Proof.
  intros Hinv. rewrite (appended_invariant _ _ _ _ _ _ Hinv).
  destruct Hinv as (HLT & HTH & Hle). cbn [fst snd].
  unfold length_invariant.
  rewrite !last_n_length, !length_app. cbn [List.length]. lia.
Qed.

Lemma add_to_buffer_store_invariant now now_save t h st :
  store_invariant st ->
  store_invariant (final_state (add_to_buffer now now_save t h st)).
Proof.
  intros (L & T & H & Hv & Hinv). rewrite add_to_buffer_unfold. cbv zeta.
  set (buffered := set_buffer_start_time _ _).
  assert (Hb : store_invariant buffered) by (exists L, T, H; auto).
  destruct (total_seconds_ge _ _); [|exact Hb].
  unfold bind.
  destruct (save_averaged_data_well_formed now_save buffered L T H Hv)
    as [-> | [[e ->] | (hd' & lbl & a_t & a_h & -> & Hv')]];
    cbn [final_state ret]; try exact Hb.
  pose proof (appended_keeps_invariant L T H lbl a_t a_h Hinv) as Hinv'.
  destruct (appended L T H lbl a_t a_h) as [[L' T'] H'].
  exists L', T', H'. auto.
Qed.

(** X4. The sensor loop keeps the retention store within its capacity:
    started on a history whose three sequences have equal length, at most
    [MAX_HISTORICAL_POINTS], it ends - after any number of iterations, with
    any readings, read failures and clock readings - on such a history. *)
Theorem sensor_loop_keeps_store_invariant ticks st :
  store_invariant st ->
  store_invariant (final_state (sensor_loop ticks st)).
Proof.
  revert ticks st. apply sensor_loop_invariant.
  intros t_read h_read clock now now_save s Hs.
  destruct (sensor_loop_body_cases t_read h_read clock now now_save s)
    as [-> | (t & h & ->)]; [exact Hs|].
  pose proof (add_to_buffer_store_invariant now now_save t h
                (final_state (update_sensor_data t h (strftime_full clock) s)) Hs)
    as Hadd.
  destruct (add_to_buffer now now_save t h _) as [[] s1|e s1];
    cbn [final_state] in Hadd.
  - destruct (py_ge_int t 38); exact Hadd.
  - exact Hadd.
Qed.

(** X5. The buzzer state reported in [sensor_data] stays the one of the
    pin: if "ON"/"OFF" matches [buzzer.value] when the loop starts, it
    matches after any number of iterations, also after read failures and
    after iterations whose buffering raised. *)
Theorem sensor_loop_reports_the_buzzer ticks st :
  buzzer_reported st ->
  buzzer_reported (final_state (sensor_loop ticks st)).
Proof.
  revert ticks st. apply sensor_loop_invariant.
  intros t_read h_read clock now now_save s Hs.
  destruct (sensor_loop_body_cases t_read h_read clock now now_save s)
    as [-> | (t & h & ->)]; [exact Hs|].
  pose proof (keeps_live_add_to_buffer now now_save t h
                (final_state (update_sensor_data t h (strftime_full clock) s)))
    as [Hsd Hbv].
  destruct (add_to_buffer now now_save t h _) as [[] s1|e s1];
    cbn [final_state] in Hsd, Hbv.
  - destruct (py_ge_int t 38); reflexivity.
  - unfold buzzer_reported in *. cbn. rewrite Hsd, Hbv. cbn. exact Hs.
Qed.

(** X6. When buffering the reading raises (the flush fails), the iteration
    still returns, with the error flag set and the new reading in
    [sensor_data], but the threshold test is not reached: the buzzer pin and
    the reported buzzer state stay as they were, whatever the temperature. *)
Theorem failed_buffering_leaves_the_buzzer st t h clock now now_save e s1 :
  add_to_buffer now now_save t h
    (final_state (update_sensor_data t h (strftime_full clock) st))
  = Raises e s1 ->
  exists s2,
    sensor_loop_body (Value (Some t)) (Value (Some h)) clock now now_save st
    = Returns tt s2 /\
    buzzer_value s2 = buzzer_value st /\
    buzzer (sensor_data s2) = buzzer (sensor_data st) /\
    error (sensor_data s2) = true /\
    temperature (sensor_data s2) = Some t /\
    humidity (sensor_data s2) = Some h.
Proof.
  intros Hbuf. rewrite sensor_loop_body_success.
  pose proof (keeps_live_add_to_buffer now now_save t h
                (final_state (update_sensor_data t h (strftime_full clock) st)))
    as [Hsd Hbv].
  rewrite Hbuf in *. cbn [final_state] in Hsd, Hbv.
  eexists. split; [reflexivity|]. cbn. rewrite Hsd, Hbv. cbn. auto.
Qed.

(* ================================================================= *)
(** ** Cleaning old data: what is dropped *)

Section Pruning.

Variable strptime_label : Z -> json -> string -> option datetime.

(** The loop stops at the first label that parses to a time at or after the
    cutoff; labels that do not parse or are older are passed over. *)
Lemma find_keep_from_first year c old recent rest t :
  (forall label t', In label old ->
                    point_time strptime_label year label = Some t' ->
                    geb t' c = false) ->
  point_time strptime_label year recent = Some t ->
  geb t c = true ->
  forall i,
    find_keep_from strptime_label year c i (old ++ recent :: rest)
    = (i + List.length old)%nat.
Proof.
  intros Hold Hpt Hge. induction old as [|label old IH]; intros i.
  - cbn [app find_keep_from List.length]. rewrite Hpt, Hge. lia.
  - cbn [app find_keep_from List.length].
    assert (IH' : forall i,
               find_keep_from strptime_label year c i (old ++ recent :: rest)
               = (i + List.length old)%nat).
    { apply IH. intros l t' Hin. apply Hold. now right. }
    destruct (point_time strptime_label year label) as [t'|] eqn:Ept.
    + rewrite (Hold label t' (or_introl eq_refl) Ept), IH'. lia.
    + rewrite IH'. lia.
Qed.

(** X7. Cleaning drops exactly the stale prefix: when the labels are some
    old ones (none of which parses to a time at or after [now - 24h])
    followed by a recent one, the old labels and as many items of the two
    other sequences are dropped, the recent label and everything after it
    stay in order - whatever the later labels are - and the history is
    saved. *)
Theorem clean_old_data_drops_the_stale_prefix st now c old recent rest t T H :
  store_view (historical_data st) = Some (old ++ recent :: rest, T, H) ->
  cutoff now = inr c ->
  old <> [] ->
  (forall label t', In label old ->
                    point_time strptime_label (year now) label = Some t' ->
                    geb t' c = false) ->
  point_time strptime_label (year now) recent = Some t ->
  geb t c = true ->
  exists hd',
    clean_old_data strptime_label now st
    = Returns tt
        (set_hist_file
           (Parsed (JObj [("data", hd');
                          ("last_save",
                           isoformat_or_none (last_historical_save st))]))
           (set_historical_data hd' st)) /\
    store_view hd'
    = Some (recent :: rest, skipn (List.length old) T, skipn (List.length old) H).
Proof.
  intros Hv Hcut Hne Hold Hpt Hge.
  pose proof (find_keep_from_first (year now) c old recent rest t Hold Hpt Hge 0)
    as Hk. cbn [Nat.add] in Hk.
  destruct (clean_old_data_drops_prefix strptime_label st now c _ T H Hv Hcut)
    as (hd' & Hv' & Hrun).
  { rewrite Hk. destruct old; [congruence|cbn; lia]. }
  exists hd'. split.
  - rewrite Hrun. apply save_historical_data_returns.
  - rewrite Hv', Hk. rewrite skipn_app, Nat.sub_diag, skipn_all. reflexivity.
Qed.

(** The ways cleaning a well-formed history can end. *)
Lemma clean_old_data_well_formed st now L T H :
  store_view (historical_data st) = Some (L, T, H) ->
  clean_old_data strptime_label now st = Returns tt st
  \/ (exists e, clean_old_data strptime_label now st = Raises e st)
  \/ exists hd' k,
       clean_old_data strptime_label now st
       = save_historical_data (set_historical_data hd' st) /\
       store_view hd' = Some (skipn k L, skipn k T, skipn k H).
Proof.
  intros Hv.
  destruct L as [|l0 L'].
  { left. apply store_view_inv in Hv. destruct Hv as (kv & Hhd & Hl & _).
    unfold clean_old_data.
    unfold bind at 1, gets at 1. rewrite Hhd.
    unfold bind at 1, lift at 1, py_getitem. rewrite Hl. reflexivity. }
  destruct (cutoff now) as [e|c] eqn:Hcut.
  - right. left. exists e.
    apply store_view_inv in Hv. destruct Hv as (kv & Hhd & Hl & _).
    unfold clean_old_data.
    unfold bind at 1, gets at 1. rewrite Hhd.
    unfold bind at 1, lift at 1, py_getitem. rewrite Hl. unfold ok, ret at 1.
    cbn [py_truthy negb].
    unfold bind at 1, lift at 1. rewrite Hcut. reflexivity.
  - destruct (0 <? find_keep_from strptime_label (year now) c 0 (l0 :: L'))%nat
      eqn:Hk.
    + right. right. apply Nat.ltb_lt in Hk.
      destruct (clean_old_data_drops_prefix strptime_label st now c _ T H
                  Hv Hcut Hk) as (hd' & Hv' & Hrun).
      now exists hd',
        (find_keep_from strptime_label (year now) c 0 (l0 :: L')).
    + left.
      apply store_view_inv in Hv. destruct Hv as (kv & Hhd & Hl & _).
      unfold clean_old_data.
      unfold bind at 1, gets at 1. rewrite Hhd.
      unfold bind at 1, lift at 1, py_getitem. rewrite Hl. unfold ok, ret at 1.
      cbn [py_truthy negb].
      unfold bind at 1, lift at 1. rewrite Hcut. unfold ret at 1.
      unfold bind at 1, lift at 1, py_iter, ok, ret at 1.
      rewrite Hk. reflexivity.
Qed.

Lemma clean_old_data_store_invariant now st :
  store_invariant st ->
  store_invariant (final_state (clean_old_data strptime_label now st)).
Proof.
  intros (L & T & H & Hv & Hinv).
  assert (Hst : store_invariant st) by (exists L, T, H; auto).
  destruct (clean_old_data_well_formed st now L T H Hv)
    as [-> | [[e ->] | (hd' & k & -> & Hv')]]; try exact Hst.
  rewrite save_historical_data_returns. cbn [final_state].
  exists (skipn k L), (skipn k T), (skipn k H). split; [exact Hv'|].
  destruct Hinv as (HLT & HTH & Hle). unfold length_invariant.
  rewrite !length_skipn. lia.
Qed.

(** X8. The janitor keeps the retention store within its capacity: started
    on a history whose three sequences have equal length, at most
    [MAX_HISTORICAL_POINTS], [cleanup_thread] ends on such a history after
    any number of wake-ups, whatever the labels parse to and also when a
    wake-up raises. *)
Theorem cleanup_thread_keeps_store_invariant wakeups st :
  store_invariant st ->
  store_invariant (final_state (cleanup_thread strptime_label wakeups st)).
Proof.
  revert st. induction wakeups as [|now rest IH]; intros st Hst; [exact Hst|].
  cbn [cleanup_thread]. unfold bind.
  pose proof (clean_old_data_store_invariant now st Hst) as Hclean.
  destruct (clean_old_data strptime_label now st) as [[] s1|e s1];
    cbn [final_state] in Hclean.
  - now apply IH.
  - exact Hclean.
Qed.

End Pruning.

(* ================================================================= *)
(** ** Clearing, flushing and loading together *)

Section Restart.

Variable fromisoformat : string -> option datetime.

(** X9. Clearing and then loading gives the empty store, whatever the
    globals and the file were: the history is empty, there is no last save
    and no file, the buffers are empty and no window is open. *)
Theorem clear_then_load_gives_empty_store st :
  (clear_history ;; load_historical_data fromisoformat) st
  = Returns tt
      {| sensor_data := sensor_data st;
         buzzer_value := buzzer_value st;
         historical_data := empty_history;
         last_historical_save := None;
         temp_readings_buffer := [];
         humidity_readings_buffer := [];
         buffer_start_time := None;
         hist_file := Absent |}.
Proof.
  destruct st as [sd bv hd last temps hums start f].
  destruct f; reflexivity.
Qed.

(** X10. A file that is a JSON object without a "data" entry loads as the
    empty history (the default of [data.get]), and its "last_save" entry, a
    timestamp, is still taken as the last save. *)
Theorem load_without_data_takes_last_save st kv s d :
  hist_file st = Parsed (JObj kv) ->
  dict_get "data" kv = None ->
  dict_get "last_save" kv = Some (JStr s) ->
  s <> "" ->
  fromisoformat s = Some d ->
  load_historical_data fromisoformat st
  = Returns tt (set_last_historical_save (Some d)
                  (set_historical_data empty_history st)).
Proof.
  intros Hf Hdata Hls Hne Hd.
  unfold load_historical_data, try_except.
  unfold bind at 1, gets at 1. rewrite Hf.
  unfold py_get. rewrite Hdata, Hls.
  unfold bind, lift, ok, ret, modify, gets.
  assert (Htruthy : py_truthy (JStr s) = true).
  { cbn. destruct s; [congruence|reflexivity]. }
  rewrite Htruthy. cbn [py_fromisoformat]. rewrite Hd. reflexivity.
Qed.

Hypothesis fromisoformat_isoformat :
  forall d, valid d -> fromisoformat (isoformat d) = Some d.

(** X11. A flushed point survives a restart: after a flush on a
    well-formed history, loading the saved file from the initial globals
    gives back the history with the new point and the time of the flush as
    the last save. *)
Theorem flushed_point_survives_restart st now L T H avg_t avg_h mid :
  store_view (historical_data st) = Some (L, T, H) ->
  temp_readings_buffer st <> [] ->
  humidity_readings_buffer st <> [] ->
  window_average (temp_readings_buffer st) = inr avg_t ->
  window_average (humidity_readings_buffer st) = inr avg_h ->
  middle_of_period (buffer_start_time st) = inr mid ->
  valid now ->
  exists flushed restarted,
    save_averaged_data now st = Returns true flushed /\
    load_historical_data fromisoformat (initial_state (hist_file flushed))
    = Returns tt restarted /\
    historical_data restarted = historical_data flushed /\
    store_view (historical_data restarted)
    = Some (appended L T H (strftime_label mid) avg_t avg_h) /\
    last_historical_save restarted = Some now.
Proof.
  intros Hv Ht Hh Hat Hah Hmid Hnow.
  destruct (save_averaged_data_view _ L T H avg_t avg_h mid Hv)
    as (hd' & Hv' & Hsave).
  specialize (Hsave st now eq_refl Ht Hh Hat Hah Hmid).
  exists (flushed_state st hd' now).
  assert (Hloads : last_save_loads fromisoformat
                     [("data", hd'); ("last_save", JStr (isoformat now))]).
  { unfold last_save_loads. cbn [dict_get String.eqb Ascii.eqb Bool.eqb].
    right. exists now. cbn [py_fromisoformat].
    now rewrite fromisoformat_isoformat. }
  destruct (appended L T H (strftime_label mid) avg_t avg_h)
    as [[L' T'] H'] eqn:Eapp.
  eexists. split; [exact Hsave|]. split.
  - apply (load_well_formed fromisoformat
             (initial_state (hist_file (flushed_state st hd' now)))
             [("data", hd'); ("last_save", JStr (isoformat now))]
             hd' L' T' H' eq_refl eq_refl Hv' Hloads).
  - cbn [dict_get String.eqb Ascii.eqb Bool.eqb].
    replace (py_truthy (JStr (isoformat now))) with true by reflexivity.
    cbn [py_fromisoformat]. rewrite fromisoformat_isoformat by exact Hnow.
    cbn. auto.
Qed.

End Restart.

(* ================================================================= *)
(** ** The statistics route *)

(** X12. [history_stats] only reads: for every state of the globals and
    every clock reading it returns an answer (the statistics, or the error
    answer when computing them raised) and leaves every global as it was. *)
Theorem history_stats_only_reads now st :
  exists answer, history_stats now st = Returns answer st.
Proof.
  unfold history_stats, try_except.
  match goal with
  | |- exists a, match ?body st with _ => _ end = _ =>
      assert (Hkeeps : keeps (fun s => s) body) by repeat keeps_step;
      specialize (Hkeeps st); destruct (body st) as [a s'|e s']
  end; cbn [final_state] in Hkeeps; subst s'; eexists; reflexivity.
Qed.

(** X13. Right after [clear_history], the statistics are those of an empty
    store: no points, no oldest and newest point, no last save, no buffered
    reading, no open window and no countdown. *)
Theorem history_stats_after_clear now st :
  exists cleared,
    clear_history st = Returns ("success", 200) cleared /\
    history_stats now cleared
    = Returns
        (Ok200 (JObj [("total_points", JInt 0);
                      ("oldest_point", JNull);
                      ("newest_point", JNull);
                      ("last_save", JNull);
                      ("buffered_readings", JInt 0);
                      ("buffer_start", JNull);
                      ("next_save_in", JNull)]))
        cleared.
Proof.
  destruct st as [sd bv hd last temps hums start f].
  eexists. split; [destruct f; reflexivity|]. reflexivity.
Qed.

(** The statistics of a non-empty store while no window is open. *)
Lemma history_stats_closed_window now s L T H :
  store_view (historical_data s) = Some (L, T, H) ->
  L <> [] ->
  buffer_start_time s = None ->
  history_stats now s
  = Returns
      (Ok200 (JObj [("total_points", JInt (Z.of_nat (List.length L)));
                    ("oldest_point", hd JNull L);
                    ("newest_point", last L JNull);
                    ("last_save", isoformat_or_none (last_historical_save s));
                    ("buffered_readings",
                     JInt (Z.of_nat (List.length (temp_readings_buffer s))));
                    ("buffer_start", JNull);
                    ("next_save_in", JNull)]))
      s.
Proof.
  intros Hv HL Hstart.
  apply store_view_inv in Hv. destruct Hv as (kv & Hhd & Hl & _).
  unfold history_stats, try_except.
  unfold bind at 1, gets at 1. rewrite Hhd.
  unfold bind at 1, lift at 1, py_getitem. rewrite Hl. unfold ok, ret at 1.
  destruct L as [|l0 L']; [congruence|].
  unfold bind, lift, gets, ret, py_len, py_truthy, py_item_first,
    py_item_last, ok.
  rewrite Hstart. reflexivity.
Qed.

Lemma appended_labels_end L T H lbl t h :
  exists L0, fst (fst (appended L T H lbl t h)) = L0 ++ [JStr lbl].
Proof.
  unfold appended.
  destruct (MAX_HISTORICAL_POINTS <? List.length (L ++ [JStr lbl]))%nat eqn:E;
    cbn [fst]; [|now exists L].
  unfold last_n. rewrite skipn_app.
  exists (skipn (List.length (L ++ [JStr lbl]) - MAX_HISTORICAL_POINTS) L).
  f_equal.
  replace (List.length (L ++ [JStr lbl]) - MAX_HISTORICAL_POINTS
           - List.length L)%nat with 0%nat; [reflexivity|].
  rewrite length_app. cbn [List.length]. unfold MAX_HISTORICAL_POINTS. lia.
Qed.

(** X14. Right after a flush on a well-formed history, the statistics show
    the flushed point as the newest point, the time of the flush as the last
    save, no buffered reading, no open window and no countdown; the number
    of points is the length of the new label sequence. *)
Theorem history_stats_after_flush st now clock L T H avg_t avg_h mid :
  store_view (historical_data st) = Some (L, T, H) ->
  temp_readings_buffer st <> [] ->
  humidity_readings_buffer st <> [] ->
  window_average (temp_readings_buffer st) = inr avg_t ->
  window_average (humidity_readings_buffer st) = inr avg_h ->
  middle_of_period (buffer_start_time st) = inr mid ->
  exists flushed,
    save_averaged_data now st = Returns true flushed /\
    history_stats clock flushed
    = Returns
        (Ok200 (JObj
           [("total_points",
             JInt (Z.of_nat (List.length
                    (fst (fst (appended L T H (strftime_label mid)
                                        avg_t avg_h))))));
            ("oldest_point",
             hd JNull (fst (fst (appended L T H (strftime_label mid)
                                          avg_t avg_h))));
            ("newest_point", JStr (strftime_label mid));
            ("last_save", JStr (isoformat now));
            ("buffered_readings", JInt 0);
            ("buffer_start", JNull);
            ("next_save_in", JNull)]))
        flushed.
Proof.
  intros Hv Ht Hh Hat Hah Hmid.
  destruct (save_averaged_data_view _ L T H avg_t avg_h mid Hv)
    as (hd' & Hv' & Hsave).
  specialize (Hsave st now eq_refl Ht Hh Hat Hah Hmid).
  exists (flushed_state st hd' now). split; [exact Hsave|].
  destruct (appended_labels_end L T H (strftime_label mid) avg_t avg_h)
    as [L0 HL0].
  destruct (appended L T H (strftime_label mid) avg_t avg_h)
    as [[L' T'] H'] eqn:Eapp.
  cbn [fst] in *. subst L'.
  rewrite (history_stats_closed_window clock (flushed_state st hd' now)
             (L0 ++ [JStr (strftime_label mid)]) T' H' Hv').
  - now rewrite last_last.
  - intros E. now apply app_eq_nil in E as [_ E].
  - reflexivity.
Qed.

(* ================================================================= *)
(** ** Shutdown *)

(** X15. [cleanup] saves a window that is still open: with readings in
    both buffers, on a well-formed history, it adds the point of the
    buffered readings - however young the window is - saves the history,
    resets the buffers and switches the buzzer pin off. *)
Theorem cleanup_flushes_the_open_window st now L T H avg_t avg_h mid :
  store_view (historical_data st) = Some (L, T, H) ->
  temp_readings_buffer st <> [] ->
  humidity_readings_buffer st <> [] ->
  window_average (temp_readings_buffer st) = inr avg_t ->
  window_average (humidity_readings_buffer st) = inr avg_h ->
  middle_of_period (buffer_start_time st) = inr mid ->
  exists hd',
    cleanup now true st
    = Returns tt (set_buzzer_value false (flushed_state st hd' now)) /\
    store_view hd' = Some (appended L T H (strftime_label mid) avg_t avg_h).
Proof.
  intros Hv Ht Hh Hat Hah Hmid.
  destruct (save_averaged_data_view _ L T H avg_t avg_h mid Hv)
    as (hd' & Hv' & Hsave).
  specialize (Hsave st now eq_refl Ht Hh Hat Hah Hmid).
  exists hd'. split; [|exact Hv'].
  unfold cleanup. unfold bind at 1, gets at 1. unfold bind at 1, gets at 1.
  destruct (temp_readings_buffer st) as [|t0 ts]; [congruence|].
  destruct (humidity_readings_buffer st) as [|h0 hs]; [congruence|].
  unfold bind at 1. unfold bind at 1. rewrite Hsave. reflexivity.
Qed.

(** X16. [cleanup] run a second time (it is both the signal handler and
    the exit handler) does not flush again: after a [cleanup] that returned,
    whether or not it could write the pin, any further [cleanup] returns and
    leaves the history, the file, the last save, the buffers and the window
    as they are; all it still does is switch the buzzer pin off, if the pin
    can be written.  When the first [cleanup] wrote the pin, the second
    changes no global at all. *)
Theorem cleanup_twice_is_cleanup_once st now pin_writable st1 :
  cleanup now pin_writable st = Returns tt st1 ->
  forall now' pin_writable',
    cleanup now' pin_writable' st1
    = Returns tt (if pin_writable' then set_buzzer_value false st1 else st1) /\
    (pin_writable = true -> cleanup now' pin_writable' st1 = Returns tt st1).
Proof.
  intros Hrun now' w'.
  assert (Hst1 : (pin_writable = true -> buzzer_value st1 = false) /\
                 (temp_readings_buffer st1 = []
                  \/ humidity_readings_buffer st1 = [])).
  { unfold cleanup in Hrun.
    unfold bind at 1, gets at 1 in Hrun. unfold bind at 1, gets at 1 in Hrun.
    destruct (save_averaged_data_outcomes now st)
      as [[_ Hempty] | (Ht & Hh & Hout)].
    - assert (E : st1 = if pin_writable then set_buzzer_value false st else st).
      { destruct pin_writable, Hempty as [E | E]; rewrite E in Hrun;
          try (cbn in Hrun; now injection Hrun as <-);
          destruct (temp_readings_buffer st); cbn in Hrun;
            now injection Hrun as <-. }
      subst st1. destruct pin_writable; cbn; split; auto; discriminate.
    - destruct (temp_readings_buffer st) as [|t0 ts]; [congruence|].
      destruct (humidity_readings_buffer st) as [|h0 hs]; [congruence|].
      unfold bind at 1 in Hrun. unfold bind at 1 in Hrun.
      destruct Hout as [(e & s' & Hsave & _) | (hd & Hsave)];
        rewrite Hsave in Hrun; [discriminate|].
      destruct pin_writable; cbn in Hrun; injection Hrun as <-; cbn;
        split; auto; discriminate. }
  destruct Hst1 as [Hpin Hempty].
  assert (Hsecond :
            cleanup now' w' st1
            = Returns tt (if w' then set_buzzer_value false st1 else st1)).
  { unfold cleanup, bind, gets.
    destruct Hempty as [-> | ->];
      [|destruct (temp_readings_buffer st1)]; destruct w'; reflexivity. }
  split; [exact Hsecond|].
  intros Hw. rewrite Hsecond. specialize (Hpin Hw).
  destruct st1 as [sd bv hd last temps hums start f].
  cbn [buzzer_value] in Hpin. subst bv.
  destruct w'; reflexivity.
Qed.

(* ================================================================= *)
(** ** A flush on a history without its "temp" sequence *)

(** X17. The flush is not atomic: on a history that has its "labels" list
    but no "temp" entry, it raises [KeyError] after the label was added.
    The buffers are not reset, the window stays open, and neither the last
    save nor the file is written. *)
Theorem flush_without_temp_sequence st now kv L avg_t avg_h mid :
  historical_data st = JObj kv ->
  dict_get "labels" kv = Some (JList L) ->
  dict_get "temp" kv = None ->
  temp_readings_buffer st <> [] ->
  humidity_readings_buffer st <> [] ->
  window_average (temp_readings_buffer st) = inr avg_t ->
  window_average (humidity_readings_buffer st) = inr avg_h ->
  middle_of_period (buffer_start_time st) = inr mid ->
  save_averaged_data now st
  = Raises KeyError
      (set_historical_data
         (JObj (dict_set "labels" (JList (L ++ [JStr (strftime_label mid)])) kv))
         st).
Proof.
  intros Hhd Hl Htemp Ht Hh Hat Hah Hmid.
  rewrite save_averaged_data_unfold.
  unfold window_average in Hat, Hah.
  destruct (temp_readings_buffer st) as [|t0 ts]; [congruence|].
  destruct (humidity_readings_buffer st) as [|h0 hs]; [congruence|].
  cbv beta iota zeta.
  destruct (py_sum (t0 :: ts)) as [|sum_t]; [discriminate|].
  destruct (py_truediv_len sum_t _) as [|a_t]; [discriminate|].
  destruct (py_sum (h0 :: hs)) as [|sum_h]; [discriminate|].
  destruct (py_truediv_len sum_h _) as [|a_h]; [discriminate|].
  rewrite Hmid.
  unfold append_point.
  erewrite bind_returns by (eapply history_append_obj; eauto).
  cbv beta.
  unfold bind at 1, history_append at 1.
  unfold bind at 1, gets at 1. cbn [historical_data set_historical_data].
  unfold bind at 1, lift at 1, py_getitem.
  rewrite dict_get_set. cbn [String.eqb Ascii.eqb Bool.eqb]. rewrite Htemp.
  reflexivity.
Qed.

(* ================================================================= *)
(** ** First in, first out *)

Lemma last_n_app_last_n {A} n (xs ys : list A) :
  last_n n (last_n n xs ++ ys) = last_n n (xs ++ ys).
Proof.
  unfold last_n. rewrite !length_app, length_skipn.
  destruct (Nat.le_gt_cases (List.length xs) n) as [Hle | Hgt].
  - replace (List.length xs - n)%nat with 0%nat by lia. cbn [skipn].
    now rewrite Nat.sub_0_r.
  - replace (List.length xs - (List.length xs - n) + List.length ys - n)%nat
      with (List.length ys) by lia.
    replace (List.length xs + List.length ys - n)%nat
      with (List.length ys + (List.length xs - n))%nat by lia.
    rewrite <- skipn_skipn. f_equal.
    rewrite skipn_app.
    replace (List.length xs - n - List.length xs)%nat with 0%nat by lia.
    reflexivity.
Qed.

Lemma appended_extends L T H aL aT aH lbl t h :
  List.length L = List.length T -> List.length T = List.length H ->
  List.length aL = List.length aT -> List.length aT = List.length aH ->
  appended (last_n MAX_HISTORICAL_POINTS (L ++ aL))
           (last_n MAX_HISTORICAL_POINTS (T ++ aT))
           (last_n MAX_HISTORICAL_POINTS (H ++ aH)) lbl t h
  = (last_n MAX_HISTORICAL_POINTS (L ++ aL ++ [JStr lbl]),
     last_n MAX_HISTORICAL_POINTS (T ++ aT ++ [JFloat t]),
     last_n MAX_HISTORICAL_POINTS (H ++ aH ++ [JFloat h])).
Proof.
  intros HLT HTH HaLT HaTH.
  rewrite appended_invariant.
  - rewrite !last_n_app_last_n, <- !app_assoc. reflexivity.
  - unfold length_invariant. rewrite !last_n_length, !length_app. lia.
Qed.

Lemma extends_store_more n m L T H st :
  (n <= m)%nat -> extends_store n L T H st -> extends_store m L T H st.
Proof.
  intros Hnm (aL & aT & aH & Hn & Hrest).
  exists aL, aT, aH. split; [lia|exact Hrest].
Qed.

Lemma add_to_buffer_extends_store n L T H now now_save t h st :
  List.length L = List.length T -> List.length T = List.length H ->
  extends_store n L T H st ->
  extends_store (S n) L T H (final_state (add_to_buffer now now_save t h st)).
Proof.
  intros HLT HTH (aL & aT & aH & Hn & HaLT & HaTH & Hv).
  rewrite add_to_buffer_unfold. cbv zeta.
  set (buffered := set_buffer_start_time _ _).
  assert (Hb : extends_store (S n) L T H buffered)
    by (exists aL, aT, aH; repeat split; auto).
  destruct (total_seconds_ge _ _); [|exact Hb].
  unfold bind.
  destruct (save_averaged_data_well_formed now_save buffered _ _ _ Hv)
    as [-> | [[e ->] | (hd' & lbl & a_t & a_h & -> & Hv')]];
    cbn [final_state ret]; try exact Hb.
  rewrite appended_extends in Hv' by assumption.
  exists (aL ++ [JStr lbl]), (aT ++ [JFloat a_t]), (aH ++ [JFloat a_h]).
  rewrite !length_app. cbn [List.length]. repeat split; try lia. exact Hv'.
Qed.

Lemma sensor_loop_body_extends_store n L T H t_read h_read clock now now_save s :
  List.length L = List.length T -> List.length T = List.length H ->
  extends_store n L T H s ->
  extends_store (S n) L T H
    (final_state (sensor_loop_body t_read h_read clock now now_save s)).
Proof.
  intros HLT HTH Hs.
  destruct (sensor_loop_body_cases t_read h_read clock now now_save s)
    as [-> | (t & h & ->)];
    [apply (extends_store_more n); [lia|exact Hs]|].
  pose proof (add_to_buffer_extends_store n L T H now now_save t h
                (final_state (update_sensor_data t h (strftime_full clock) s))
                HLT HTH Hs) as Hadd.
  destruct (add_to_buffer now now_save t h _) as [[] s1|e s1];
    cbn [final_state] in Hadd.
  - destruct (py_ge_int t 38); exact Hadd.
  - exact Hadd.
Qed.

Lemma sensor_loop_extends_store L T H ticks :
  List.length L = List.length T -> List.length T = List.length H ->
  forall n s,
    extends_store n L T H s ->
    extends_store (n + List.length ticks) L T H
                  (final_state (sensor_loop ticks s)).
Proof.
  intros HLT HTH.
  induction ticks as [|k rest IH]; intros n s Hs.
  - apply (extends_store_more n); [lia|exact Hs].
  - cbn [sensor_loop List.length]. unfold bind.
    pose proof (sensor_loop_body_extends_store
                  n L T H (tick_temperature k) (tick_humidity k) (tick_clock k)
                  (tick_now k) (tick_now_save k) s HLT HTH Hs) as Hbody.
    destruct (sensor_loop_body _ _ _ _ _ s) as [[] s1|e s1];
      cbn [final_state] in Hbody.
    + replace (n + S (List.length rest))%nat
        with (S n + List.length rest)%nat by lia.
      now apply IH.
    + apply (extends_store_more (S n)); [lia|exact Hbody].
Qed.

(** X18. The sensor loop treats the history first in, first out: started
    on a retention store [(L, T, H)], it ends on the last
    [MAX_HISTORICAL_POINTS] points of [(L, T, H)] followed by the points it
    added, at most one per iteration.  Points are added at the end only, and
    are lost at the front only, once the capacity is exceeded. *)
Theorem sensor_loop_is_first_in_first_out ticks st L T H :
  store_view (historical_data st) = Some (L, T, H) ->
  length_invariant L T H ->
  extends_store (List.length ticks) L T H (final_state (sensor_loop ticks st)).
Proof.
  intros Hv (HLT & HTH & Hle).
  apply (sensor_loop_extends_store L T H ticks HLT HTH 0%nat st).
  exists [], [], []. rewrite !app_nil_r, !last_n_short by lia.
  cbn [List.length]. repeat split; auto.
Qed.

Section Janitor.

Variable strptime_label : Z -> json -> string -> option datetime.

(** X19. The janitor only ever drops a prefix: started on a well-formed
    history [(L, T, H)], [cleanup_thread] ends - after any number of
    wake-ups, also when one of them raises - on [(L, T, H)] without its
    first [k] points, for some [k], the same for the three sequences.  It
    never drops a point from the middle or the end and never reorders. *)
Theorem cleanup_thread_only_drops_a_prefix wakeups st L T H :
  store_view (historical_data st) = Some (L, T, H) ->
  suffix_of_store L T H (final_state (cleanup_thread strptime_label wakeups st)).
Proof.
  intros Hv.
  assert (Hst : suffix_of_store L T H st) by (now exists 0%nat).
  clear Hv. revert st Hst.
  induction wakeups as [|now rest IH]; intros st Hst; [exact Hst|].
  cbn [cleanup_thread]. unfold bind.
  assert (Hclean : suffix_of_store L T H
                     (final_state (clean_old_data strptime_label now st))).
  { destruct Hst as [k Hv].
    destruct (clean_old_data_well_formed strptime_label st now _ _ _ Hv)
      as [-> | [[e ->] | (hd' & j & -> & Hv')]];
      try (now exists k).
    rewrite save_historical_data_returns. cbn [final_state].
    exists (j + k)%nat. cbn [historical_data set_hist_file set_historical_data].
    now rewrite !skipn_skipn in Hv'. }
  destruct (clean_old_data strptime_label now st) as [[] s1|e s1];
    cbn [final_state] in Hclean.
  - now apply IH.
  - exact Hclean.
Qed.

End Janitor.

(* ================================================================= *)
(** ** Concrete instances of the further properties *)

(** The closing reading of the scenario. *)
Lemma add_to_buffer_keeps_buffers_paired_witness :
  buffers_paired
    (final_state
       (add_to_buffer window_close window_close (PyFloat 27.0) (PyInt 51)
                      (window_state [PyFloat 25.0; PyFloat 26.0]
                                    [PyInt 50; PyInt 52]))).
Proof.
  apply (add_to_buffer_keeps_buffers_paired
           window_close window_close (PyFloat 27.0) (PyInt 51)
           (window_state [PyFloat 25.0; PyFloat 26.0] [PyInt 50; PyInt 52])).
  split; [reflexivity|discriminate].
Defined.

(** A reading two minutes into the window. *)
Lemma add_to_buffer_leaves_young_window_witness :
  exists st',
    add_to_buffer (mkDatetime 2024 1 5 15 17 0 0) window_close
                  (PyFloat 26.0) (PyInt 52)
                  (window_state [PyFloat 25.0] [PyInt 50])
    = Returns tt st' /\
    exists t0,
      buffer_start_time st' = Some t0 /\
      sub_us (mkDatetime 2024 1 5 15 17 0 0) t0 < 300000000 /\
      temp_readings_buffer st' = [PyFloat 25.0; PyFloat 26.0].
Proof.
  eexists. split; [vm_compute; reflexivity|].
  edestruct (add_to_buffer_leaves_young_window
               (mkDatetime 2024 1 5 15 17 0 0) window_close
               (PyFloat 26.0) (PyInt 52)
               (window_state [PyFloat 25.0] [PyInt 50]))
    as [(Hnone & _) | (t0 & Hstart & Hage & Htemps & _)].
  - vm_compute. reflexivity.
  - discriminate Hnone.
  - exists t0. split; [exact Hstart|]. split; [exact Hage|exact Htemps].
Defined.

(** A reading of 40.0 degrees that closes the window of a history without
    its "temp" sequence: the buzzer stays off. *)
Lemma failed_buffering_leaves_the_buzzer_witness :
  exists s2,
    sensor_loop_body (Value (Some (PyFloat 40.0))) (Value (Some (PyInt 51)))
                     window_close window_close window_close broken_state
    = Returns tt s2 /\
    buzzer_value s2 = false /\
    buzzer (sensor_data s2) = "OFF" /\
    error (sensor_data s2) = true.
Proof.
  edestruct (failed_buffering_leaves_the_buzzer
               broken_state (PyFloat 40.0) (PyInt 51)
               window_close window_close window_close)
    as (s2 & Hrun & Hpin & Hname & Herr & _).
  - vm_compute. reflexivity.
  - exists s2. auto.
Defined.

(** Four iterations from a fresh start. *)
Lemma sensor_loop_keeps_store_invariant_witness :
  store_invariant (final_state (sensor_loop example_ticks (initial_state Absent))).
Proof.
  apply (sensor_loop_keeps_store_invariant example_ticks (initial_state Absent)).
  exists [], [], []. split; [reflexivity|].
  unfold length_invariant, MAX_HISTORICAL_POINTS. cbn. lia.
Defined.

Lemma sensor_loop_reports_the_buzzer_witness :
  buzzer_reported (final_state (sensor_loop example_ticks (initial_state Absent))).
Proof.
  apply (sensor_loop_reports_the_buzzer example_ticks (initial_state Absent)).
  reflexivity.
Defined.

(** The same four iterations on a full history: one point is added, the
    oldest is lost. *)
Lemma sensor_loop_is_first_in_first_out_witness :
  extends_store 4
    (map (fun n => JStr (pad4 (Z.of_nat n))) (seq 0 288))
    (map (fun n => JInt (Z.of_nat n)) (seq 0 288))
    (map (fun n => JInt (Z.of_nat (n + 40))) (seq 0 288))
    (final_state
       (sensor_loop example_ticks
                    (set_historical_data full_history (initial_state Absent)))).
Proof.
  apply (sensor_loop_is_first_in_first_out
           example_ticks
           (set_historical_data full_history (initial_state Absent))).
  - reflexivity.
  - unfold length_invariant. rewrite !length_map, !length_seq.
    unfold MAX_HISTORICAL_POINTS. lia.
Defined.

Lemma mixed_labels_old_are_stale label t :
  In label mixed_labels_old ->
  point_time parse_label 2024 label = Some t ->
  geb t (mkDatetime 2024 1 4 15 20 0 0) = false.
Proof.
  intros Hin Hpt. unfold mixed_labels_old in Hin.
  repeat (destruct Hin as [<- | Hin];
          [vm_compute in Hpt;
           first [discriminate Hpt | injection Hpt as <-; reflexivity]|]).
  destruct Hin.
Qed.

(** The two stale labels are dropped, the recent one and the stale one
    after it stay. *)
Lemma clean_old_data_drops_the_stale_prefix_witness :
  exists hd',
    clean_old_data parse_label window_close mixed_store
    = Returns tt
        (set_hist_file
           (Parsed (JObj [("data", hd'); ("last_save", JNull)]))
           (set_historical_data hd' mixed_store)) /\
    store_view hd'
    = Some ([JStr "Jan 05 03:17 PM"; JStr "Jan 02 10:00 AM"],
            [JFloat 22.0; JFloat 23.0], [JFloat 52.0; JFloat 53.0]).
Proof.
  apply (clean_old_data_drops_the_stale_prefix
           parse_label mixed_store window_close
           (mkDatetime 2024 1 4 15 20 0 0)
           mixed_labels_old mixed_label_recent mixed_labels_rest
           (mkDatetime 2024 1 5 15 17 0 0) mixed_temps mixed_hums).
  - reflexivity.
  - reflexivity.
  - discriminate.
  - exact mixed_labels_old_are_stale.
  - reflexivity.
  - reflexivity.
Defined.

(** Two wake-ups of the janitor, an hour apart. *)
Lemma cleanup_thread_keeps_store_invariant_witness :
  store_invariant
    (final_state
       (cleanup_thread parse_label
                       [window_close; mkDatetime 2024 1 5 16 20 0 0]
                       mixed_store)).
Proof.
  apply (cleanup_thread_keeps_store_invariant
           parse_label [window_close; mkDatetime 2024 1 5 16 20 0 0]
           mixed_store).
  exists (mixed_labels_old ++ mixed_label_recent :: mixed_labels_rest),
    mixed_temps, mixed_hums.
  split; [reflexivity|].
  unfold length_invariant, MAX_HISTORICAL_POINTS. cbn. lia.
Defined.

Lemma cleanup_thread_only_drops_a_prefix_witness :
  suffix_of_store
    (mixed_labels_old ++ mixed_label_recent :: mixed_labels_rest)
    mixed_temps mixed_hums
    (final_state
       (cleanup_thread parse_label
                       [window_close; mkDatetime 2024 1 5 16 20 0 0]
                       mixed_store)).
Proof.
  apply (cleanup_thread_only_drops_a_prefix
           parse_label [window_close; mkDatetime 2024 1 5 16 20 0 0]
           mixed_store).
  reflexivity.
Defined.

(** The scenario flushed at 15:20:00 and loaded after a restart. *)
Lemma flushed_point_survives_restart_witness :
  exists flushed restarted,
    save_averaged_data window_close scenario_state = Returns true flushed /\
    load_historical_data parse_isoformat (initial_state (hist_file flushed))
    = Returns tt restarted /\
    store_view (historical_data restarted)
    = Some ([JStr "Jan 05 03:17 PM"], [JFloat 26.0], [JFloat 51.0]) /\
    last_historical_save restarted = Some window_close.
Proof.
  destruct (flushed_point_survives_restart
              parse_isoformat parse_isoformat_isoformat
              scenario_state window_close [] [] [] 26.0%float 51.0%float
              (mkDatetime 2024 1 5 15 17 30 0))
    as (flushed & restarted & Hsave & Hload & _ & Hv & Hlast).
  - reflexivity.
  - discriminate.
  - discriminate.
  - vm_compute. reflexivity.
  - vm_compute. reflexivity.
  - reflexivity.
  - unfold valid. cbn. lia.
  - exists flushed, restarted. auto.
Defined.

(** The statistics after the flush of the scenario. *)
Lemma history_stats_after_flush_witness :
  exists flushed,
    save_averaged_data window_close scenario_state = Returns true flushed /\
    history_stats (mkDatetime 2024 1 5 15 21 0 0) flushed
    = Returns
        (Ok200 (JObj [("total_points", JInt 1);
                      ("oldest_point", JStr "Jan 05 03:17 PM");
                      ("newest_point", JStr "Jan 05 03:17 PM");
                      ("last_save", JStr "2024-01-05T15:20:00");
                      ("buffered_readings", JInt 0);
                      ("buffer_start", JNull);
                      ("next_save_in", JNull)]))
        flushed.
Proof.
  destruct (history_stats_after_flush
              scenario_state window_close (mkDatetime 2024 1 5 15 21 0 0)
              [] [] [] 26.0%float 51.0%float (mkDatetime 2024 1 5 15 17 30 0))
    as (flushed & Hsave & Hstats).
  - reflexivity.
  - discriminate.
  - discriminate.
  - vm_compute. reflexivity.
  - vm_compute. reflexivity.
  - reflexivity.
  - exists flushed. split; [exact Hsave | exact Hstats].
Defined.

(** [cleanup] two minutes into the window of the scenario. *)
Lemma cleanup_flushes_the_open_window_witness :
  exists hd',
    cleanup (mkDatetime 2024 1 5 15 17 0 0) true scenario_state
    = Returns tt
        (set_buzzer_value false
           (flushed_state scenario_state hd' (mkDatetime 2024 1 5 15 17 0 0))) /\
    store_view hd'
    = Some ([JStr "Jan 05 03:17 PM"], [JFloat 26.0], [JFloat 51.0]).
Proof.
  apply (cleanup_flushes_the_open_window
           scenario_state (mkDatetime 2024 1 5 15 17 0 0) [] [] []
           26.0%float 51.0%float (mkDatetime 2024 1 5 15 17 30 0)).
  - reflexivity.
  - discriminate.
  - discriminate.
  - vm_compute. reflexivity.
  - vm_compute. reflexivity.
  - reflexivity.
Defined.

(** A second [cleanup] with the pin already released, and a second
    [cleanup] after one that could not write the pin while the buzzer was
    on. *)
Lemma cleanup_twice_is_cleanup_once_witness :
  (cleanup window_close true scenario_state = Returns tt after_cleanup /\
   cleanup (mkDatetime 2024 1 5 15 20 1 0) false after_cleanup
   = Returns tt after_cleanup) /\
  (cleanup window_close false alarm_state
   = Returns tt after_cleanup_without_pin /\
   buzzer_value after_cleanup_without_pin = true /\
   cleanup (mkDatetime 2024 1 5 15 20 1 0) true after_cleanup_without_pin
   = Returns tt (set_buzzer_value false after_cleanup_without_pin)).
Proof.
  assert (Hfirst : cleanup window_close true scenario_state
                   = Returns tt after_cleanup) by (vm_compute; reflexivity).
  assert (Hstuck : cleanup window_close false alarm_state
                   = Returns tt after_cleanup_without_pin)
    by (vm_compute; reflexivity).
  split; (split; [eassumption|]).
  - apply (cleanup_twice_is_cleanup_once
             scenario_state window_close true after_cleanup Hfirst
             (mkDatetime 2024 1 5 15 20 1 0) false).
    reflexivity.
  - split; [reflexivity|].
    apply (proj1 (cleanup_twice_is_cleanup_once
                    alarm_state window_close false after_cleanup_without_pin
                    Hstuck (mkDatetime 2024 1 5 15 20 1 0) true)).
Defined.

(** A file that holds a last save only. *)
Lemma load_without_data_takes_last_save_witness :
  load_historical_data parse_isoformat
                       (initial_state (Parsed (JObj last_save_only_file)))
  = Returns tt
      (set_last_historical_save (Some window_close)
         (initial_state (Parsed (JObj last_save_only_file)))).
Proof.
  apply (load_without_data_takes_last_save
           parse_isoformat (initial_state (Parsed (JObj last_save_only_file)))
           last_save_only_file "2024-01-05T15:20:00" window_close).
  - reflexivity.
  - reflexivity.
  - reflexivity.
  - discriminate.
  - reflexivity.
Defined.

(** A flush on the history that has its labels only. *)
Lemma flush_without_temp_sequence_witness :
  save_averaged_data window_close broken_state
  = Raises KeyError
      (set_historical_data
         (JObj [("labels", JList [JStr "Jan 05 03:17 PM"])]) broken_state).
Proof.
  apply (flush_without_temp_sequence
           broken_state window_close labels_only [] 25.0%float 50.0%float
           (mkDatetime 2024 1 5 15 17 30 0)).
  - reflexivity.
  - reflexivity.
  - reflexivity.
  - discriminate.
  - discriminate.
  - vm_compute. reflexivity.
  - vm_compute. reflexivity.
  - reflexivity.
Defined.
